(** * TeleBuddy backend: record definitions, persistence gateway, handlers

    A shallow embedding of [src/schemas.py] and [src/main.py].

    - Python values (the JSON-like data that crosses every boundary of the
      program) are the inductive [value]; a Python [dict] with string keys is
      an association list in insertion order, which is what [model_dump], the
      document store and the schema export all observe.
    - A pydantic model class is a table of field declarations ([model]);
      constructing an instance is [construct], which validates a mapping of
      keyword arguments against the table and either yields the instance or
      raises [ValidationError] with pydantic's list of error details.
    - The handlers of [main.py] live in a state-and-exception monad [App]
      over the process-wide store handle.
    - [database.py] is imported by [main.py] but is not part of the sources;
      [create_document] and [get_documents] are modelled from the
      specification's Persistence Gateway (section 4.2). *)

From Stdlib Require Import ZArith String Ascii List Bool Lia.
From Stdlib Require Import Floats.SpecFloat.
From stdpp Require Import base option list strings gmap pretty.

Local Open Scope string_scope.
Local Open Scope Z_scope.
Set Warnings "-register-all".

(* ===================================================================== *)
(** ** Results *)
(* ===================================================================== *)

Inductive result (E A : Type) : Type :=
| Ok (a : A)
| Err (e : E).
Arguments Ok {E A} a.
Arguments Err {E A} e.

Definition is_ok {E A} (r : result E A) : bool :=
  match r with Ok _ => true | Err _ => false end.

(* ===================================================================== *)
(** ** Python values *)
(* ===================================================================== *)

(** [VFloat] carries an IEEE-754 binary64 number ([spec_float] with
    precision 53 and maximal exponent 1024); [VObjectId] is the store's
    native 12-byte identifier, read as a number. *)
Inductive value : Type :=
| VNone
| VBool (b : bool)
| VInt (z : Z)
| VFloat (f : spec_float)
| VStr (s : string)
| VList (l : list value)
| VDict (d : list (string * value))
| VObjectId (o : N).

Abbreviation dict := (list (string * value)).

(** [d.get(k)] / [d[k]]: the value bound to [k], if any. *)
Fixpoint dict_get (k : string) (d : dict) : option value :=
  match d with
  | [] => None
  | (k', v) :: d' => if String.eqb k k' then Some v else dict_get k d'
  end.

(** [d[k] = v]: rebinds [k] in place, or appends a new binding. *)
Fixpoint dict_set (k : string) (v : value) (d : dict) : dict :=
  match d with
  | [] => [(k, v)]
  | (k', v') :: d' =>
      if String.eqb k k' then (k, v) :: d' else (k', v') :: dict_set k v d'
  end.

Definition dict_keys (d : dict) : list string := map fst d.

(** *** Floats *)

Definition prec : Z := 53.
Definition emax : Z := 1024.

(** [float(z)] for a Python int: round to nearest even. *)
Definition float_of_Z (z : Z) : spec_float := binary_normalize prec emax z 0 false.

Definition float_is_finite (f : spec_float) : bool :=
  match f with
  | S754_zero _ | S754_finite _ _ _ => true
  | _ => false
  end.

(** The integer a float denotes, when it has no fractional part. *)
Definition float_as_Z (f : spec_float) : option Z :=
  match f with
  | S754_zero _ => Some 0
  | S754_finite s m e =>
      let mag :=
        if 0 <=? e then Some (Z.pos m * 2 ^ e)
        else if Z.pos m mod 2 ^ (- e) =? 0 then Some (Z.pos m / 2 ^ (- e))
        else None in
      match mag with
      | Some n => Some (if s then - n else n)
      | None => None
      end
  | _ => None
  end.

Definition float_eqb (f g : spec_float) : bool :=
  match f, g with
  | S754_zero s, S754_zero s' => Bool.eqb s s'
  | S754_infinity s, S754_infinity s' => Bool.eqb s s'
  | S754_nan, S754_nan => true
  | S754_finite s m e, S754_finite s' m' e' =>
      Bool.eqb s s' && Pos.eqb m m' && Z.eqb e e'
  | _, _ => false
  end.

(** Structural identity of two values (used by exact-match filters). *)
Fixpoint value_eqb (v w : value) {struct v} : bool :=
  match v, w with
  | VNone, VNone => true
  | VBool a, VBool b => Bool.eqb a b
  | VInt a, VInt b => Z.eqb a b
  | VFloat a, VFloat b => float_eqb a b
  | VStr a, VStr b => String.eqb a b
  | VList l, VList l' =>
      (fix go (xs ys : list value) {struct xs} : bool :=
         match xs, ys with
         | [], [] => true
         | x :: xs', y :: ys' => value_eqb x y && go xs' ys'
         | _, _ => false
         end) l l'
  | VDict d, VDict d' =>
      (fix go (xs ys : dict) {struct xs} : bool :=
         match xs, ys with
         | [], [] => true
         | (k, x) :: xs', (k', y) :: ys' =>
             String.eqb k k' && value_eqb x y && go xs' ys'
         | _, _ => false
         end) d d'
  | VObjectId a, VObjectId b => N.eqb a b
  | _, _ => false
  end.

(** *** ASCII helpers for [str.lower] and [str.title] *)

Definition is_upper (c : ascii) : bool :=
  let n := nat_of_ascii c in (65 <=? n)%nat && (n <=? 90)%nat.
Definition is_lower (c : ascii) : bool :=
  let n := nat_of_ascii c in (97 <=? n)%nat && (n <=? 122)%nat.
Definition to_lower (c : ascii) : ascii :=
  if is_upper c then ascii_of_nat (nat_of_ascii c + 32) else c.
Definition to_upper (c : ascii) : ascii :=
  if is_lower c then ascii_of_nat (nat_of_ascii c - 32) else c.

(** [s.lower()] *)
Fixpoint lower (s : string) : string :=
  match s with
  | EmptyString => EmptyString
  | String c s' => String (to_lower c) (lower s')
  end.

(** The title pydantic derives from a field name: underscores become
    spaces and every word is capitalised, as [str.title] does. [in_word]
    tells whether the previous character was a letter. *)
Fixpoint title_from (in_word : bool) (s : string) : string :=
  match s with
  | EmptyString => EmptyString
  | String c s' =>
      let c := if Ascii.eqb c "_"%char then " "%char else c in
      if is_upper c || is_lower c
      then String (if in_word then to_lower c else to_upper c) (title_from true s')
      else String c (title_from false s')
  end.
Definition field_title (name : string) : string := title_from false name.

(* ===================================================================== *)
(** ** The parts of the Python runtime left abstract *)
(* ===================================================================== *)

(** Parsing numbers and booleans out of strings (pydantic's lax mode) and
    printing floats and quoted strings ([repr]) are library code with no
    counterpart in the sources; every definition and theorem below is
    parametric in them. *)
Class PyRuntime : Type := {
  str_to_int : string -> option Z;
  str_to_float : string -> option spec_float;
  str_to_bool : string -> option bool;
  float_repr : spec_float -> string;
  str_repr : string -> string
}.

(* ===================================================================== *)
(** ** Record definitions: the declaration language of [schemas.py] *)
(* ===================================================================== *)

(** What follows the [=] of a field: [Field(...)] (required), a default
    value, or [default_factory=list]. *)
Inductive default_spec : Type :=
| Required
| Default (v : value)
| DefaultFactoryList.

(** One field declaration: annotation, default, the [ge] bound and the
    description given to [Field]. *)
Record field_info (T : Type) : Type := Field {
  f_type : T;
  f_default : default_spec;
  f_ge : option Z;
  f_description : option string
}.
Arguments Field {T} f_type f_default f_ge f_description.
Arguments f_type {T} _.
Arguments f_default {T} _.
Arguments f_ge {T} _.
Arguments f_description {T} _.

(** Type annotations used by the program: [str], [int], [float], [bool],
    [Literal[...]], [Optional[...]], [List[...]] and a nested model. *)
Inductive ftype : Type :=
| TStr
| TInt
| TFloat
| TBool
| TLiteral (opts : list string)
| TOptional (t : ftype)
| TList (t : ftype)
| TModel (name : string) (fields : list (string * field_info ftype)).

Abbreviation field_table := (list (string * field_info ftype)).

Record model : Type := Model {
  m_name : string;
  m_fields : field_table
}.

Definition model_type (m : model) : ftype := TModel (m_name m) (m_fields m).

(* ===================================================================== *)
(** ** Validation errors *)
(* ===================================================================== *)

(** The [type] of a pydantic error detail. *)
Inductive error_type : Type :=
| missing
| string_type
| int_type
| int_parsing
| int_from_float
| int_parsing_size
| finite_number
| float_type
| float_parsing
| bool_type
| bool_parsing
| literal_error
| greater_than_equal
| list_type
| model_type_error
| model_attributes_type.

(** The [loc] of an error detail: field names and list indices. *)
Inductive loc_item : Type :=
| LKey (k : string)
| LIdx (i : nat).

Definition error_detail : Type := list loc_item * error_type.

Definition vresult (A : Type) : Type := result (list error_detail) A.

Definition fail_with {A} (t : error_type) : vresult A := Err [([], t)].

(** Prefix the location of every error with [i]. *)
Definition at_loc {A} (i : loc_item) (r : vresult A) : vresult A :=
  match r with
  | Ok a => Ok a
  | Err es => Err (map (fun e => (i :: fst e, snd e)) es)
  end.

(** Run two validations and report the errors of both. *)
Definition both {A B C} (f : A -> B -> C) (r : vresult A) (s : vresult B) : vresult C :=
  match r, s with
  | Ok a, Ok b => Ok (f a b)
  | Ok _, Err es => Err es
  | Err es, Ok _ => Err es
  | Err es, Err es' => Err (es ++ es')%list
  end.

(** The exceptions of the program. *)
Inductive exn : Type :=
| RequestValidationError (errors : list error_detail)
| ValidationError (errors : list error_detail)
| StorageUnavailable
| StorageError
| KeyError (key : string)
| AttributeError (name : string).

(* ===================================================================== *)
(** ** Validation (pydantic, lax mode, Python input) *)
(* ===================================================================== *)

Section Validation.
Context `{PyRuntime}.

Definition coerce_str (v : value) : vresult value :=
  match v with
  | VStr s => Ok (VStr s)
  | _ => fail_with string_type
  end.

(** A float read as an integer: it must be finite, have no fractional part
    and lie strictly inside the 64-bit range. *)
Definition float_as_int (f : spec_float) : vresult Z :=
  if float_is_finite f then
    match float_as_Z f with
    | Some z =>
        if (- 2 ^ 63 <? z) && (z <? 2 ^ 63) then Ok z else fail_with int_parsing_size
    | None => fail_with int_from_float
    end
  else fail_with finite_number.

Definition coerce_int (v : value) : vresult value :=
  match v with
  | VInt z => Ok (VInt z)
  | VBool b => Ok (VInt (if b then 1 else 0))
  | VStr s =>
      match str_to_int s with
      | Some z => Ok (VInt z)
      | None => fail_with int_parsing
      end
  | VFloat f =>
      match float_as_int f with
      | Ok z => Ok (VInt z)
      | Err es => Err es
      end
  | _ => fail_with int_type
  end.

Definition coerce_float (v : value) : vresult value :=
  match v with
  | VFloat f => Ok (VFloat f)
  | VStr s =>
      match str_to_float s with
      | Some f => Ok (VFloat f)
      | None => fail_with float_parsing
      end
  | VInt z =>
      let f := float_of_Z z in
      if float_is_finite f then Ok (VFloat f) else fail_with float_type
  | VBool b => Ok (VFloat (float_of_Z (if b then 1 else 0)))
  | _ => fail_with float_type
  end.

Definition coerce_bool (v : value) : vresult value :=
  match v with
  | VBool b => Ok (VBool b)
  | VStr s =>
      match str_to_bool s with
      | Some b => Ok (VBool b)
      | None => fail_with bool_parsing
      end
  | VInt z =>
      if z =? 0 then Ok (VBool false)
      else if z =? 1 then Ok (VBool true)
      else fail_with bool_parsing
  | VFloat f =>
      match float_as_int f with
      | Ok z =>
          if z =? 0 then Ok (VBool false)
          else if z =? 1 then Ok (VBool true)
          else fail_with bool_parsing
      | Err _ => fail_with bool_type
      end
  | _ => fail_with bool_type
  end.

Definition coerce_literal (opts : list string) (v : value) : vresult value :=
  match v with
  | VStr s => if existsb (String.eqb s) opts then Ok (VStr s) else fail_with literal_error
  | _ => fail_with literal_error
  end.

(** The [ge=bound] constraint, applied to a validated number. *)
Definition check_ge (bound : option Z) (v : value) : vresult value :=
  match bound, v with
  | Some b, VInt z => if b <=? z then Ok v else fail_with greater_than_equal
  | Some b, VFloat f => if SFleb (float_of_Z b) f then Ok v else fail_with greater_than_equal
  | _, _ => Ok v
  end.

(** Validation of the elements of a list, each error located by index. *)
Fixpoint validate_items (co : value -> vresult value) (i : nat) (l : list value)
  : vresult (list value) :=
  match l with
  | [] => Ok []
  | x :: l' => both cons (at_loc (LIdx i) (co x)) (validate_items co (S i) l')
  end.

Section Fields.
Context {T : Type} (co : T -> value -> vresult value).

(** One field of a model: the supplied value validated against the
    annotation and the bound, or the default when nothing is supplied
    (defaults are not validated). *)
Definition validate_field (name : string) (fi : field_info T) (kwargs : dict)
  : vresult value :=
  match dict_get name kwargs with
  | Some v =>
      at_loc (LKey name)
        match co (f_type fi) v with
        | Ok v' => check_ge (f_ge fi) v'
        | Err es => Err es
        end
  | None =>
      match f_default fi with
      | Required => at_loc (LKey name) (fail_with missing)
      | Default v => Ok v
      | DefaultFactoryList => Ok (VList [])
      end
  end.

(** All fields in declaration order; keyword arguments that name no field
    are ignored. *)
Fixpoint validate_fields (fs : list (string * field_info T)) (kwargs : dict)
  : vresult dict :=
  match fs with
  | [] => Ok []
  | (name, fi) :: fs' =>
      both (fun v rest => (name, v) :: rest)
           (validate_field name fi kwargs) (validate_fields fs' kwargs)
  end.
End Fields.

Fixpoint coerce (t : ftype) (v : value) {struct t} : vresult value :=
  match t with
  | TStr => coerce_str v
  | TInt => coerce_int v
  | TFloat => coerce_float v
  | TBool => coerce_bool v
  | TLiteral opts => coerce_literal opts v
  | TOptional t' =>
      match v with
      | VNone => Ok VNone
      | _ => coerce t' v
      end
  | TList t' =>
      match v with
      | VList l =>
          match validate_items (coerce t') 0 l with
          | Ok l' => Ok (VList l')
          | Err es => Err es
          end
      | _ => fail_with list_type
      end
  | TModel _ fields =>
      match v with
      | VDict d =>
          match validate_fields coerce fields d with
          | Ok d' => Ok (VDict d')
          | Err es => Err es
          end
      | _ => fail_with model_type_error
      end
  end.

(** Calling the class [m] on keyword arguments: the instance, as the mapping
    of its fields in declaration order, or the error details of the
    [ValidationError]. *)
Definition construct (m : model) (kwargs : dict) : result exn dict :=
  match validate_fields coerce (m_fields m) kwargs with
  | Ok inst => Ok inst
  | Err es => Err (ValidationError es)
  end.

End Validation.

(** [inst.model_dump()]: an instance is already kept as the plain mapping of
    its fields (nested instances included). *)
Definition model_dump (inst : dict) : dict := inst.

(* ===================================================================== *)
(** ** [schemas.py]: the ten record definitions *)
(* ===================================================================== *)

(** [Field(..., description=d)] *)
Definition required (t : ftype) (d : string) : field_info ftype :=
  Field t Required None (Some d).
(** [Optional[t] = Field(None, description=d)] *)
Definition optional (t : ftype) (d : string) : field_info ftype :=
  Field (TOptional t) (Default VNone) None (Some d).

Definition Bot : model := Model "Bot" [
  ("name", required TStr "Display name for this bot");
  ("username", optional TStr "Telegram @username of the bot");
  ("token", optional TStr "Telegram Bot API token (stored encrypted in production)");
  ("team_id", optional TStr "Team/Workspace this bot belongs to");
  ("welcome_message", optional TStr "Auto DM for join requests to private groups/channels");
  ("is_active", Field TBool (Default (VBool true)) None (Some "Whether bot is currently active"))
].

Definition Fan : model := Model "Fan" [
  ("bot_id", required TStr "Bot this fan is associated with");
  ("tg_user_id", required TStr "Telegram user id");
  ("username", optional TStr "Telegram username");
  ("first_name", optional TStr "First name");
  ("last_name", optional TStr "Last name");
  ("timezone", optional TStr "IANA timezone string if known");
  ("total_spend", Field TFloat (Default (VInt 0)) None
                    (Some "Total Stars revenue associated with this fan"))
].

Definition MediaItem : model := Model "MediaItem" [
  ("bot_id", required TStr "Bot that owns this media item");
  ("type", required (TLiteral ["photo"; "video"; "document"]) "Telegram media type");
  ("caption", optional TStr "Default caption to send with media");
  ("price", Field (TOptional TFloat) (Default VNone) (Some 0)
              (Some "Price in Stars or currency equivalent"));
  ("external_url", optional TStr "External URL to fetch the file from (for demos)");
  ("telegram_file_id", optional TStr "Telegram file_id for instant reuse");
  ("tags", Field (TList TStr) DefaultFactoryList None (Some "Tags for quick filtering"));
  ("thumbnail_url", optional TStr "Optional thumbnail url")
].

Definition ScriptStep : model := Model "ScriptStep" [
  ("media_item_id", optional TStr "Reference to a media item");
  ("caption", optional TStr "Override caption for this step");
  ("price", optional TFloat "Override price for this step");
  ("delay_minutes", Field TInt (Default (VInt 0)) (Some 0)
                      (Some "Delay before sending this step in minutes"))
].

Definition Script : model := Model "Script" [
  ("bot_id", required TStr "Owning bot");
  ("name", required TStr "Name of the sales script");
  ("steps", Field (TList (model_type ScriptStep)) DefaultFactoryList None
              (Some "Sequence of steps"))
].

Definition Conversation : model := Model "Conversation" [
  ("bot_id", required TStr "Owning bot");
  ("fan_id", required TStr "Fan in this conversation");
  ("last_message_preview", optional TStr "Preview text for list view");
  ("last_message_at", optional TStr "ISO time of last message");
  ("unread", Field TInt (Default (VInt 0)) None (Some "Unread count for agent side"))
].

Definition Message : model := Model "Message" [
  ("conversation_id", required TStr "Conversation this message belongs to");
  ("direction", required (TLiteral ["inbound"; "outbound"]) "Message direction");
  ("text", optional TStr "Text body");
  ("media_item_id", optional TStr "If message sent a media item");
  ("price", optional TFloat "Price charged for paid media");
  ("paid", Field TBool (Default (VBool false)) None (Some "Whether this was paid content"));
  ("telegram_message_id", optional TInt "Telegram message id if delivered");
  ("telegram_file_id", optional TStr "file_id used for instant delivery if any")
].

Definition Team : model := Model "Team" [
  ("name", required TStr "Team name")
].

Definition TeamMember : model := Model "TeamMember" [
  ("team_id", Field TStr Required None None);
  ("user_id", Field TStr Required None None);
  ("role", Field (TLiteral ["owner"; "admin"; "agent"; "viewer"])
             (Default (VStr "agent")) None None)
].

Definition AnalyticsDaily : model := Model "AnalyticsDaily" [
  ("bot_id", Field TStr Required None None);
  ("date", required TStr "YYYY-MM-DD");
  ("revenue", Field TFloat (Default (VInt 0)) None None);
  ("paid_messages", Field TInt (Default (VInt 0)) None None);
  ("unique_fans", Field TInt (Default (VInt 0)) None None)
].

(** The model table exported for the [/schema] endpoint. *)
Definition ALL_MODELS : list (string * model) := [
  ("Bot", Bot);
  ("Fan", Fan);
  ("MediaItem", MediaItem);
  ("ScriptStep", ScriptStep);
  ("Script", Script);
  ("Conversation", Conversation);
  ("Message", Message);
  ("Team", Team);
  ("TeamMember", TeamMember);
  ("AnalyticsDaily", AnalyticsDaily)
].

(* ===================================================================== *)
(** ** [main.py]: the request models *)
(* ===================================================================== *)

Definition plain (t : ftype) : field_info ftype := Field t Required None None.
Definition plain_optional (t : ftype) : field_info ftype :=
  Field (TOptional t) (Default VNone) None None.

Definition CreateMediaRequest : model := Model "CreateMediaRequest" [
  ("bot_id", plain TStr);
  ("type", plain TStr);
  ("caption", plain_optional TStr);
  ("price", plain_optional TFloat);
  ("external_url", plain_optional TStr)
].

Definition CreateConversationRequest : model := Model "CreateConversationRequest" [
  ("bot_id", plain TStr);
  ("fan_id", plain TStr);
  ("last_message_preview", plain_optional TStr)
].

Definition SendMessageRequest : model := Model "SendMessageRequest" [
  ("conversation_id", plain TStr);
  ("text", plain_optional TStr);
  ("media_item_id", plain_optional TStr);
  ("paid", Field TBool (Default (VBool false)) None None);
  ("price", plain_optional TFloat)
].

Definition CreateBotRequest : model := Model "CreateBotRequest" [
  ("name", plain TStr);
  ("username", plain_optional TStr)
].

(** A runtime that reads no number out of any string; the examples below
    never supply a string where a number or a boolean is declared. *)
Definition no_parsing : PyRuntime := {|
  str_to_int _ := None;
  str_to_float _ := None;
  str_to_bool _ := None;
  float_repr _ := "";
  str_repr s := "'" ++ s ++ "'"
|}.

(* ===================================================================== *)
(** ** [str()] of a value *)
(* ===================================================================== *)

Definition hex_digit (n : N) : ascii :=
  match n with
  | 0%N => "0" | 1%N => "1" | 2%N => "2" | 3%N => "3" | 4%N => "4"
  | 5%N => "5" | 6%N => "6" | 7%N => "7" | 8%N => "8" | 9%N => "9"
  | 10%N => "a" | 11%N => "b" | 12%N => "c" | 13%N => "d" | 14%N => "e"
  | _ => "f"
  end%char.

(** The [k] low hexadecimal digits of [n], most significant first. *)
Fixpoint hex_fixed (k : nat) (n : N) (acc : string) : string :=
  match k with
  | O => acc
  | S k' => hex_fixed k' (n / 16)%N (String (hex_digit (n mod 16)%N) acc)
  end.

(** [str(ObjectId)]: the 24 hexadecimal digits of its 12 bytes. *)
Definition objectid_str (o : N) : string := hex_fixed 24 o "".

Section Str.
Context `{PyRuntime}.

Fixpoint py_repr (v : value) : string :=
  match v with
  | VNone => "None"
  | VBool b => if b then "True" else "False"
  | VInt z => pretty z
  | VFloat f => float_repr f
  | VStr s => str_repr s
  | VList l => "[" ++ String.concat ", " (map py_repr l) ++ "]"
  | VDict d =>
      "{" ++ String.concat ", "
               (map (fun kv => str_repr (fst kv) ++ ": " ++ py_repr (snd kv)) d) ++ "}"
  | VObjectId o => "ObjectId('" ++ objectid_str o ++ "')"
  end.

Definition py_str (v : value) : string :=
  match v with
  | VStr s => s
  | VObjectId o => objectid_str o
  | _ => py_repr v
  end.

End Str.

(* ===================================================================== *)
(** ** The store and the handler monad *)
(* ===================================================================== *)

(** The document store behind the connection: its collections in insertion
    order, the next identifier it will assign, and whether it can currently
    be reached. *)
Record store : Type := Store {
  collections : gmap string (list dict);
  next_id : N;
  reachable : bool
}.

(** The process-wide handle [db] of [database.py]: [None] when no connection
    was established at start-up. It is never reassigned. *)
Definition world : Type := option store.

Definition App (A : Type) : Type := world -> result exn A * world.

Definition ret {A} (a : A) : App A := fun w => (Ok a, w).
Definition raise {A} (e : exn) : App A := fun w => (Err e, w).
Definition bind {A B} (c : App A) (k : A -> App B) : App B :=
  fun w =>
    match c w with
    | (Ok a, w') => k a w'
    | (Err e, w') => (Err e, w')
    end.

Declare Scope app_scope.
Delimit Scope app_scope with app.
Notation "x <- c ;; k" := (bind c (fun x => k))
  (at level 100, c at next level, right associativity) : app_scope.
Local Open Scope app_scope.

(** A call that returns or raises, made inside a handler. *)
Definition call {A} (r : result exn A) : App A := fun w => (r, w).

(** [obj.name] on a model instance. *)
Definition getattr (obj : dict) (name : string) : App value :=
  match dict_get name obj with
  | Some v => ret v
  | None => raise (AttributeError name)
  end.

(** [for x in xs: ...] with a body that may raise. *)
Fixpoint for_each {A B} (body : A -> App B) (xs : list A) : App (list B) :=
  match xs with
  | [] => ret []
  | x :: xs' => y <- body x ;; ys <- for_each body xs' ;; ret (y :: ys)
  end.

(* ===================================================================== *)
(** ** Persistence gateway *)
(* ===================================================================== *)

(** Modelled from the spec: the gateway maps a record kind to the collection
    named by the lower-cased kind. *)
Definition collection_of (kind : string) : string := lower kind.

Definition documents (st : store) (kind : string) : list dict :=
  default [] (collections st !! collection_of kind).

(** Modelled from the spec: a document satisfies an exact-match filter when
    every filtered field is present with the required value. *)
Definition matches (filter_dict : dict) (doc : dict) : bool :=
  forallb (fun kv =>
             match dict_get (fst kv) doc with
             | Some v => value_eqb (snd kv) v
             | None => false
             end) filter_dict.

(** Modelled from the spec: [create_document] of [database.py], which is not
    among the sources (Persistence Gateway, [create]). The record is
    serialized to a plain mapping and inserted into the collection named by
    the lower-cased kind; the store-assigned identifier is returned as a
    string. With no connection it fails with [StorageUnavailable]; when the
    insert itself fails, with [StorageError]. *)
Definition create_document (collection_name : string) (data : dict) : App string :=
  fun w =>
    match w with
    | None => (Err StorageUnavailable, w)
    | Some st =>
        if reachable st then
          let oid := next_id st in
          let doc := ("_id", VObjectId oid) :: model_dump data in
          let coll := collection_of collection_name in
          (Ok (objectid_str oid),
           Some {| collections :=
                     <[coll := (documents st collection_name ++ [doc])%list]> (collections st);
                   next_id := N.succ oid;
                   reachable := reachable st |})
        else (Err StorageError, w)
    end.

(** Modelled from the spec: [get_documents] of [database.py], which is not
    among the sources (Persistence Gateway, [query]). Up to [limit] documents
    of the kind that satisfy the filter, in insertion order; the empty
    sequence when there is no connection or the read fails. The documents
    come back as stored: converting the identifier is left to the handlers
    of [main.py], which do it after the call. *)
Definition get_documents (collection_name : string) (filter_dict : dict) (limit : Z)
  : App (list dict) :=
  fun w =>
    match w with
    | None => (Ok [], w)
    | Some st =>
        if reachable st then
          (Ok (take (Z.to_nat limit)
                 (List.filter (matches filter_dict) (documents st collection_name))), w)
        else (Ok [], w)
    end.

(* ===================================================================== *)
(** ** Schema export ([model_json_schema]) *)
(* ===================================================================== *)

(** Insertion of a binding into a mapping sorted by key. *)
Fixpoint insert_sorted (kv : string * value) (d : dict) : dict :=
  match d with
  | [] => [kv]
  | kv' :: d' =>
      if String.leb (fst kv) (fst kv') then kv :: kv' :: d'
      else kv' :: insert_sorted kv d'
  end.

(** The generator emits the keys of every schema object in alphabetical
    order (the entries under [properties] keep declaration order). *)
Definition sort_keys (d : dict) : dict := fold_right insert_sorted [] d.

Definition entry_if (k : string) (o : option value) : dict :=
  match o with
  | Some v => [(k, v)]
  | None => []
  end.

(** The schema of an annotation; the [ge] bound of the field lands on the
    number it constrains, a nested model is referred to by name. *)
Fixpoint type_schema (ge : option Z) (t : ftype) : dict :=
  match t with
  | TStr => [("type", VStr "string")]
  | TInt => sort_keys (entry_if "minimum" (VInt <$> ge) ++ [("type", VStr "integer")])
  | TFloat => sort_keys (entry_if "minimum" (VInt <$> ge) ++ [("type", VStr "number")])
  | TBool => [("type", VStr "boolean")]
  | TLiteral opts => sort_keys [("enum", VList (map VStr opts)); ("type", VStr "string")]
  | TOptional t' =>
      [("anyOf", VList [VDict (type_schema ge t'); VDict [("type", VStr "null")]])]
  | TList t' => sort_keys [("items", VDict (type_schema None t')); ("type", VStr "array")]
  | TModel name _ => [("$ref", VStr ("#/$defs/" ++ name))]
  end%list.

Definition default_entry (d : default_spec) : dict :=
  match d with
  | Default v => [("default", v)]
  | _ => []
  end.

(** The entry of one field under [properties]. *)
Definition field_schema (name : string) (fi : field_info ftype) : dict :=
  sort_keys (type_schema (f_ge fi) (f_type fi)
             ++ default_entry (f_default fi)
             ++ entry_if "description" (VStr <$> f_description fi)
             ++ [("title", VStr (field_title name))])%list.

Definition is_required (fi : field_info ftype) : bool :=
  match f_default fi with
  | Required => true
  | _ => false
  end.

Definition required_names (fs : field_table) : list string :=
  map fst (List.filter (fun nf => is_required (snd nf)) fs).

(** The object schema of a model, without the definitions it refers to. *)
Definition object_schema (name : string) (fs : field_table) : dict :=
  sort_keys ([("properties", VDict (map (fun nf => (fst nf, VDict (field_schema (fst nf) (snd nf)))) fs))]
             ++ match required_names fs with
                | [] => []
                | names => [("required", VList (map VStr names))]
                end
             ++ [("title", VStr name); ("type", VStr "object")])%list.

(** The nested models an annotation refers to, each with its schema. *)
Fixpoint defs_of (t : ftype) : dict :=
  match t with
  | TOptional t' => defs_of t'
  | TList t' => defs_of t'
  | TModel name fs =>
      (name, VDict (object_schema name fs))
        :: flat_map (fun nf => defs_of (f_type (snd nf))) fs
  | _ => []
  end.

(** [m.model_json_schema()] *)
Definition model_json_schema (m : model) : dict :=
  sort_keys (match flat_map (fun nf => defs_of (f_type (snd nf))) (m_fields m) with
             | [] => []
             | defs => [("$defs", VDict (sort_keys defs))]
             end
             ++ object_schema (m_name m) (m_fields m))%list.

(* ===================================================================== *)
(** ** [main.py]: the handlers *)
(* ===================================================================== *)

Section Handlers.
Context `{PyRuntime}.

(** The request body of a POST route, validated against its request model
    before the handler runs; the errors of a refused body are located under
    [body]. *)
Definition under_body (es : list error_detail) : list error_detail :=
  map (fun e => (LKey "body" :: fst e, snd e)) es.

Definition parse_body (req : model) (body : value) : App dict :=
  match body with
  | VDict d =>
      match construct req d with
      | Ok payload => ret payload
      | Err (ValidationError es) => raise (RequestValidationError (under_body es))
      | Err e => raise e
      end
  | _ => raise (RequestValidationError (under_body [([], model_attributes_type)]))
  end.

Definition get_schema : App dict :=
  ret (map (fun nm => (fst nm, VDict (model_json_schema (snd nm)))) ALL_MODELS).

(** [it["_id"] = str(it["_id"])] *)
Definition stringify_id (it : dict) : App dict :=
  match dict_get "_id" it with
  | Some v => ret (dict_set "_id" (VStr (py_str v)) it)
  | None => raise (KeyError "_id")
  end.

(** [{"bot_id": bot_id} if bot_id else {}]: [None] and the empty string are
    both falsy. *)
Definition media_filter (bot_id : option string) : dict :=
  match bot_id with
  | Some (String c s) => [("bot_id", VStr (String c s))]
  | _ => []
  end.

Definition list_media (bot_id : option string) (limit : option Z) : App (list dict) :=
  let limit := default 50 limit in
  let filter_q := media_filter bot_id in
  items <- get_documents "mediaitem" filter_q limit ;;
  for_each stringify_id items.

Definition create_media (payload : dict) : App dict :=
  doc <- call (construct MediaItem (model_dump payload)) ;;
  inserted_id <- create_document "mediaitem" doc ;;
  ret [("id", VStr inserted_id)].

Definition list_conversations (bot_id : string) (limit : option Z) : App (list dict) :=
  let limit := default 50 limit in
  items <- get_documents "conversation" [("bot_id", VStr bot_id)] limit ;;
  for_each stringify_id items.

Definition create_conversation (payload : dict) : App dict :=
  doc <- call (construct Conversation (model_dump payload)) ;;
  inserted_id <- create_document "conversation" doc ;;
  ret [("id", VStr inserted_id)].

Definition list_messages (conversation_id : string) (limit : option Z) : App (list dict) :=
  let limit := default 100 limit in
  items <- get_documents "message" [("conversation_id", VStr conversation_id)] limit ;;
  for_each stringify_id items.

Definition send_message (payload : dict) : App dict :=
  conversation_id <- getattr payload "conversation_id" ;;
  text <- getattr payload "text" ;;
  media_item_id <- getattr payload "media_item_id" ;;
  paid <- getattr payload "paid" ;;
  price <- getattr payload "price" ;;
  msg <- call (construct Message [
           ("conversation_id", conversation_id);
           ("direction", VStr "outbound");
           ("text", text);
           ("media_item_id", media_item_id);
           ("paid", paid);
           ("price", price);
           ("telegram_message_id", VInt 123456)
         ]) ;;
  inserted_id <- create_document "message" msg ;;
  telegram_message_id <- getattr msg "telegram_message_id" ;;
  ret [("id", VStr inserted_id); ("telegram_message_id", telegram_message_id)].

Definition list_bots (limit : option Z) : App (list dict) :=
  let limit := default 20 limit in
  items <- get_documents "bot" [] limit ;;
  for_each stringify_id items.

Definition create_bot (payload : dict) : App dict :=
  name <- getattr payload "name" ;;
  username <- getattr payload "username" ;;
  bot <- call (construct Bot [("name", name); ("username", username)]) ;;
  inserted_id <- create_document "bot" bot ;;
  ret [("id", VStr inserted_id)].

(** The POST routes: body validation, then the handler. *)
Definition post_media (body : value) : App dict :=
  payload <- parse_body CreateMediaRequest body ;; create_media payload.
Definition post_conversations (body : value) : App dict :=
  payload <- parse_body CreateConversationRequest body ;; create_conversation payload.
Definition post_messages (body : value) : App dict :=
  payload <- parse_body SendMessageRequest body ;; send_message payload.
Definition post_bots (body : value) : App dict :=
  payload <- parse_body CreateBotRequest body ;; create_bot payload.

(** The GET routes that list documents. *)
Inductive listing : Type :=
| ListMedia (bot_id : option string) (limit : option Z)
| ListConversations (bot_id : string) (limit : option Z)
| ListMessages (conversation_id : string) (limit : option Z)
| ListBots (limit : option Z).

Definition run_listing (q : listing) : App (list dict) :=
  match q with
  | ListMedia bot_id limit => list_media bot_id limit
  | ListConversations bot_id limit => list_conversations bot_id limit
  | ListMessages conversation_id limit => list_messages conversation_id limit
  | ListBots limit => list_bots limit
  end.

End Handlers.

(* ===================================================================== *)
(** ** [main.py]: the root and diagnostics routes *)
(* ===================================================================== *)

Definition read_root : App dict :=
  ret [("message", VStr "TeleBuddy backend running")].

Section Diagnostics.

(** [os.getenv], and [db.list_collection_names()] of the store driver, which
    returns the names or raises with a message: both lie outside the
    sources and are taken as given. *)
Variable getenv : string -> option string.
Variable list_collection_names : store -> result string (list string).

(** The truth value of [os.getenv(name)]: an unset variable and an empty
    one are both falsy. *)
Definition env_is_set (name : string) : bool :=
  match getenv name with
  | Some (String _ _) => true
  | _ => false
  end.

Definition set_flag (b : bool) : string := if b then "✅ Set" else "❌ Not Set".

(** A string is kept as the UTF-8 bytes of its characters; a byte of the
    form 10xxxxxx continues the character begun before it. *)
Definition is_continuation (c : ascii) : bool :=
  let n := nat_of_ascii c in (128 <=? n)%nat && (n <? 192)%nat.

(** [s[:n]]: the first [n] characters of [s]. *)
Fixpoint take_chars (n : nat) (s : string) : string :=
  match s with
  | EmptyString => EmptyString
  | String c s' =>
      if is_continuation c then String c (take_chars n s')
      else
        match n with
        | O => EmptyString
        | S n' => String c (take_chars n' s')
        end
  end.

(** The handler catches every exception of the store call; the outer
    handler of the source guards statements that cannot raise. The message
    of an exception is cut to its first 80 characters. *)
Definition test_database : App dict :=
  fun w =>
    let response := [
      ("backend", VStr "✅ Running");
      ("database", VStr "❌ Not Available");
      ("database_url", VStr "❌ Not Set");
      ("database_name", VStr "❌ Not Set");
      ("connection_status", VStr "Not Connected");
      ("collections", VList [])
    ] in
    let response :=
      match w with
      | Some db =>
          let response := dict_set "database" (VStr "✅ Available") response in
          let response :=
            dict_set "database_url" (VStr (set_flag (env_is_set "DATABASE_URL"))) response in
          let response :=
            dict_set "database_name" (VStr (set_flag (env_is_set "DATABASE_NAME"))) response in
          match list_collection_names db with
          | Ok collections =>
              let response :=
                dict_set "collections" (VList (map VStr (take 10 collections))) response in
              let response :=
                dict_set "database" (VStr "✅ Connected & Working") response in
              dict_set "connection_status" (VStr "Connected") response
          | Err e =>
              dict_set "database"
                (VStr ("⚠️  Connected but Error: " ++ take_chars 80 e)) response
          end
      | None => dict_set "database" (VStr "⚠️  Available but not initialized") response
      end in
    (Ok response, w).

End Diagnostics.

(* ===================================================================== *)
(** ** Vocabulary of the properties *)
(* ===================================================================== *)

Definition media_types : list string := ["photo"; "video"; "document"].
Definition directions : list string := ["inbound"; "outbound"].

(** A small store used to run the operations: two media items of two
    different bots and one inbound message. *)
Definition demo_store : store := {|
  collections :=
    <["mediaitem" := [
        [("_id", VObjectId 1); ("bot_id", VStr "bot1"); ("type", VStr "photo")];
        [("_id", VObjectId 2); ("bot_id", VStr "bot2"); ("type", VStr "video")] ]]>
    (<["message" := [
        [("_id", VObjectId 3); ("conversation_id", VStr "c1");
         ("direction", VStr "inbound")] ]]> ∅);
  next_id := 4;
  reachable := true
|}.

Definition offline (st : store) : store :=
  {| collections := collections st; next_id := next_id st; reachable := false |}.

(** A document whose identifier is surfaced as a string. *)
Definition id_is_string (it : dict) : Prop :=
  exists s, dict_get "_id" it = Some (VStr s).

(** Every stored document carries an identifier. *)
Definition has_id (doc : dict) : Prop := is_Some (dict_get "_id" doc).

Definition wf_world (w : world) : Prop :=
  forall st kind, w = Some st -> Forall has_id (documents st kind).

(** The value of an [Optional] field. *)
Definition optional_value {A} (inj : A -> value) (o : option A) : value :=
  match o with
  | Some a => inj a
  | None => VNone
  end.

(** The message built by [send_message] from an accepted request. *)
Definition outbound_message (c : string) (t m : option string) (b : bool)
    (p : option spec_float) : dict :=
  [("conversation_id", VStr c);
   ("direction", VStr "outbound");
   ("text", optional_value VStr t);
   ("media_item_id", optional_value VStr m);
   ("price", optional_value VFloat p);
   ("paid", VBool b);
   ("telegram_message_id", VInt 123456);
   ("telegram_file_id", VNone)].

(** The bot built by [create_bot] from an accepted request. *)
Definition new_bot (n : string) (u : option string) : dict :=
  [("name", VStr n);
   ("username", optional_value VStr u);
   ("token", VNone);
   ("team_id", VNone);
   ("welcome_message", VNone);
   ("is_active", VBool true)].

(** The store after one more document went into a collection. *)
Definition inserted (st : store) (coll : string) (fields : dict) : store :=
  {| collections :=
       <[coll := (documents st coll ++ [("_id", VObjectId (next_id st)) :: fields])%list]>
       (collections st);
     next_id := N.succ (next_id st);
     reachable := true |}.

(** What a reader of JSON Schema finds in an exported object, stated on the
    keywords of the schema alone. [exported_type] says that an entry states
    an annotation; it is fixed below. *)
Section Described.
Variable exported_type : ftype -> option Z -> dict -> Prop.

(** An entry under [properties] states the description, the default and the
    declared type of a field. *)
Definition field_described (fi : field_info ftype) (p : dict) : Prop :=
  dict_get "description" p = VStr <$> f_description fi
  /\ dict_get "default" p =
     match f_default fi with
     | Default v => Some v
     | _ => None
     end
  /\ exported_type (f_type fi) (f_ge fi) p.

Fixpoint fields_described (fs : field_table) (props : dict) : Prop :=
  match fs with
  | [] => True
  | (n, fi) :: fs' =>
      (exists p, dict_get n props = Some (VDict p) /\ field_described fi p)
      /\ fields_described fs' props
  end.

(** The names under [required] are those of the fields declared without a
    default; the key is absent when there is none. *)
Definition required_described (fs : field_table) (s : dict) : Prop :=
  match dict_get "required" s with
  | None => forall n fi, In (n, fi) fs -> f_default fi <> Required
  | Some (VList names) =>
      forall n, In (VStr n) names <-> exists fi, In (n, fi) fs /\ f_default fi = Required
  | Some _ => False
  end.

(** An object schema states a record definition: its name, its fields in
    declaration order, each described, and which of them are required. *)
Definition object_described (name : string) (fs : field_table) (s : dict) : Prop :=
  dict_get "title" s = Some (VStr name)
  /\ dict_get "type" s = Some (VStr "object")
  /\ required_described fs s
  /\ exists props,
       dict_get "properties" s = Some (VDict props)
       /\ dict_keys props = map fst fs
       /\ fields_described fs props.

End Described.

(** An entry states an annotation, in the keywords of JSON Schema: [type]
    string, integer, number, boolean or array, [enum] for the literals,
    [minimum] for a [ge] bound, [anyOf] with a null alternative for
    [Optional], [items] for the elements of a list, and for a nested model
    a [$ref] to its object schema under [defs]. *)
Fixpoint exported (defs : dict) (t : ftype) (ge : option Z) (p : dict) {struct t} : Prop :=
  match t with
  | TStr => dict_get "type" p = Some (VStr "string") /\ dict_get "enum" p = None
  | TInt =>
      dict_get "type" p = Some (VStr "integer") /\ dict_get "minimum" p = VInt <$> ge
  | TFloat =>
      dict_get "type" p = Some (VStr "number") /\ dict_get "minimum" p = VInt <$> ge
  | TBool => dict_get "type" p = Some (VStr "boolean")
  | TLiteral opts =>
      dict_get "type" p = Some (VStr "string")
      /\ dict_get "enum" p = Some (VList (map VStr opts))
  | TOptional t' =>
      exists p',
        dict_get "anyOf" p = Some (VList [VDict p'; VDict [("type", VStr "null")]])
        /\ exported defs t' ge p'
  | TList t' =>
      dict_get "type" p = Some (VStr "array")
      /\ exists p', dict_get "items" p = Some (VDict p') /\ exported defs t' None p'
  | TModel name fields =>
      dict_get "$ref" p = Some (VStr ("#/$defs/" ++ name))
      /\ exists s,
           dict_get name defs = Some (VDict s)
           /\ object_described (exported defs) name fields s
  end.

(** The definitions a schema carries under [$defs]. *)
Definition schema_defs (s : dict) : dict :=
  match dict_get "$defs" s with
  | Some (VDict defs) => defs
  | _ => []
  end.

(** What it is for an exported schema to describe a record definition. *)
Definition describes (m : model) (s : dict) : Prop :=
  object_described (exported (schema_defs s)) (m_name m) (m_fields m) s.

(** The nested models of an annotation have distinct field names and their
    object schemas are on record under [defs]. *)
Fixpoint defs_cover (defs : dict) (t : ftype) {struct t} : Prop :=
  match t with
  | TOptional t' => defs_cover defs t'
  | TList t' => defs_cover defs t'
  | TModel name fields =>
      dict_get name defs = Some (VDict (object_schema name fields))
      /\ List.NoDup (map fst fields)
      /\ (fix go (fs : field_table) : Prop :=
            match fs with
            | [] => True
            | nf :: fs' => defs_cover defs (f_type (snd nf)) /\ go fs'
            end) fields
  | _ => True
  end.

(** The collection, the filter and the limit of a listing. *)
Definition listing_kind (q : listing) : string :=
  match q with
  | ListMedia _ _ => "mediaitem"
  | ListConversations _ _ => "conversation"
  | ListMessages _ _ => "message"
  | ListBots _ => "bot"
  end.

Definition listing_filter (q : listing) : dict :=
  match q with
  | ListMedia bot_id _ => media_filter bot_id
  | ListConversations bot_id _ => [("bot_id", VStr bot_id)]
  | ListMessages conversation_id _ => [("conversation_id", VStr conversation_id)]
  | ListBots _ => []
  end.

Definition listing_limit (q : listing) : Z :=
  match q with
  | ListMedia _ limit => default 50 limit
  | ListConversations _ limit => default 50 limit
  | ListMessages _ limit => default 100 limit
  | ListBots limit => default 20 limit
  end.

(** A stored document as a listing hands it out. *)
Definition surfaced `{PyRuntime} (doc : dict) : dict :=
  match dict_get "_id" doc with
  | Some v => dict_set "_id" (VStr (py_str v)) doc
  | None => doc
  end.

(** The POST routes, and a run of several requests in a row. *)
Inductive post : Type :=
| PostMedia (body : value)
| PostConversations (body : value)
| PostMessages (body : value)
| PostBots (body : value).

Definition run_post `{PyRuntime} (r : post) : App dict :=
  match r with
  | PostMedia body => post_media body
  | PostConversations body => post_conversations body
  | PostMessages body => post_messages body
  | PostBots body => post_bots body
  end.

Fixpoint run_posts `{PyRuntime} (rs : list post) (w : world) : world :=
  match rs with
  | [] => w
  | r :: rs' => run_posts rs' (snd (run_post r w))
  end.

(** A validated number respects the [ge] bound of its field. *)
Definition within_bound (ge : option Z) (v : value) : bool :=
  match ge, v with
  | Some b, VInt z => b <=? z
  | Some b, VFloat f => SFleb (float_of_Z b) f
  | _, _ => true
  end.

Definition is_default (d : default_spec) (v : value) : bool :=
  match d with
  | Required => false
  | Default x => value_eqb x v
  | DefaultFactoryList => value_eqb (VList []) v
  end.

(** A value has the shape its annotation declares; an instance of a nested
    model has the declared fields in order, each holding a value of its
    annotation within its bound, or the declared default. *)
Fixpoint conforms (t : ftype) (v : value) {struct t} : bool :=
  match t with
  | TStr => match v with VStr _ => true | _ => false end
  | TInt => match v with VInt _ => true | _ => false end
  | TFloat => match v with VFloat _ => true | _ => false end
  | TBool => match v with VBool _ => true | _ => false end
  | TLiteral opts =>
      match v with
      | VStr s => existsb (String.eqb s) opts
      | _ => false
      end
  | TOptional t' =>
      match v with
      | VNone => true
      | _ => conforms t' v
      end
  | TList t' =>
      match v with
      | VList l => forallb (conforms t') l
      | _ => false
      end
  | TModel _ fields =>
      match v with
      | VDict d =>
          (fix go (fs : field_table) (d : dict) {struct fs} : bool :=
             match fs, d with
             | [], [] => true
             | (n, fi) :: fs', (k, x) :: d' =>
                 String.eqb k n
                 && ((conforms (f_type fi) x && within_bound (f_ge fi) x)
                     || is_default (f_default fi) x)
                 && go fs' d'
             | _, _ => false
             end) fields d
      | _ => false
      end
  end.

Definition field_holds (fi : field_info ftype) (x : value) : bool :=
  (conforms (f_type fi) x && within_bound (f_ge fi) x) || is_default (f_default fi) x.

Fixpoint instance_of (fs : field_table) (d : dict) {struct fs} : bool :=
  match fs, d with
  | [], [] => true
  | (n, fi) :: fs', (k, x) :: d' => String.eqb k n && field_holds fi x && instance_of fs' d'
  | _, _ => false
  end.

(** Induction over annotations and over values, through their lists. *)
Definition ftype_nested_ind (P : ftype -> Prop)
    (HStr : P TStr) (HInt : P TInt) (HFloat : P TFloat) (HBool : P TBool)
    (HLiteral : forall opts, P (TLiteral opts))
    (HOptional : forall t, P t -> P (TOptional t))
    (HList : forall t, P t -> P (TList t))
    (HModel : forall name fields,
        List.Forall (fun nf => P (f_type (snd nf))) fields -> P (TModel name fields))
  : forall t, P t :=
  fix F (t : ftype) : P t :=
    match t with
    | TStr => HStr
    | TInt => HInt
    | TFloat => HFloat
    | TBool => HBool
    | TLiteral opts => HLiteral opts
    | TOptional t' => HOptional t' (F t')
    | TList t' => HList t' (F t')
    | TModel name fields =>
        HModel name fields
          ((fix G (fs : field_table) : List.Forall (fun nf => P (f_type (snd nf))) fs :=
              match fs with
              | [] => @List.Forall_nil _ _
              | nf :: fs' => @List.Forall_cons _ _ nf fs' (F (f_type (snd nf))) (G fs')
              end) fields)
    end.

Definition value_nested_ind (P : value -> Prop)
    (HNone : P VNone) (HBool : forall b, P (VBool b)) (HInt : forall z, P (VInt z))
    (HFloat : forall f, P (VFloat f)) (HStr : forall s, P (VStr s))
    (HList : forall l, List.Forall P l -> P (VList l))
    (HDict : forall d, List.Forall (fun kv => P (snd kv)) d -> P (VDict d))
    (HObjectId : forall o, P (VObjectId o))
  : forall v, P v :=
  fix F (v : value) : P v :=
    match v with
    | VNone => HNone
    | VBool b => HBool b
    | VInt z => HInt z
    | VFloat f => HFloat f
    | VStr s => HStr s
    | VList l =>
        HList l
          ((fix G (xs : list value) : List.Forall P xs :=
              match xs with
              | [] => @List.Forall_nil _ _
              | x :: xs' => @List.Forall_cons _ _ x xs' (F x) (G xs')
              end) l)
    | VDict d =>
        HDict d
          ((fix G (xs : dict) : List.Forall (fun kv => P (snd kv)) xs :=
              match xs with
              | [] => @List.Forall_nil _ _
              | kv :: xs' => @List.Forall_cons _ _ kv xs' (F (snd kv)) (G xs')
              end) d)
    | VObjectId o => HObjectId o
    end.

(** An annotation that mentions no nested model. *)
Fixpoint model_free (t : ftype) : bool :=
  match t with
  | TOptional t' => model_free t'
  | TList t' => model_free t'
  | TModel _ _ => false
  | _ => true
  end.

(** The collection a POST route writes to. *)
Definition post_kind (r : post) : string :=
  match r with
  | PostMedia _ => "mediaitem"
  | PostConversations _ => "conversation"
  | PostMessages _ => "message"
  | PostBots _ => "bot"
  end.

(** A computation that leaves a well-formed store well formed. *)
Definition keeps_wf {A} (c : App A) : Prop :=
  forall w, wf_world w -> wf_world (snd (c w)).

(* ===================================================================== *)
(** * Properties *)
(* ===================================================================== *)

(** ** Mappings *)

Lemma dict_get_set_eq (k : string) (v : value) (d : dict) :
  dict_get k (dict_set k v d) = Some v.
Proof.
  induction d as [|[k' v'] d IH]; simpl.
  - now rewrite String.eqb_refl.
  - destruct (String.eqb k k') eqn:E; simpl; rewrite ?E, ?String.eqb_refl; auto.
Qed.

Lemma dict_get_set_ne (k k' : string) (v : value) (d : dict) :
  k <> k' -> dict_get k' (dict_set k v d) = dict_get k' d.
Proof.
  intros Hne. induction d as [|[k0 v0] d IH]; simpl.
  - destruct (String.eqb_spec k' k); congruence.
  - destruct (String.eqb_spec k k0) as [->|]; simpl.
    + destruct (String.eqb_spec k' k0); congruence.
    + now rewrite IH.
Qed.

(** ** Floats: the float of a negative integer is negative *)

Lemma iter_pos_nat {A} (f : A -> A) (n : positive) (x : A) :
  SpecFloat.iter_pos f n x = Nat.iter (Pos.to_nat n) f x.
Proof.
  revert x. induction n as [n IH|n IH|]; intros x; cbn [SpecFloat.iter_pos].
  - rewrite !IH, <- Nat.iter_succ_r, <- Nat.iter_add.
    rewrite Pos2Nat.inj_xI. f_equal. lia.
  - rewrite !IH, <- Nat.iter_add. rewrite Pos2Nat.inj_xO. f_equal. lia.
  - reflexivity.
Qed.

Lemma digits2_pos_succ (y : positive) :
  Z.pos (digits2_pos y) <= Z.pos (digits2_pos (Pos.succ y)).
Proof. induction y; simpl; lia. Qed.

Lemma digits2_pos_shl (x d : positive) :
  Z.pos (digits2_pos (Pos.iter xO x d)) = Z.pos (digits2_pos x) + Z.pos d.
Proof.
  induction d using Pos.peano_ind.
  - simpl. lia.
  - rewrite Pos.iter_succ. simpl. lia.
Qed.

Lemma shr_1_positive (x : positive) (r s : bool) :
  1 < Z.pos (digits2_pos x) ->
  exists y r' s',
    shr_1 {| shr_m := Z.pos x; shr_r := r; shr_s := s |}
      = {| shr_m := Z.pos y; shr_r := r'; shr_s := s' |}
    /\ Z.pos (digits2_pos y) = Z.pos (digits2_pos x) - 1.
Proof.
  destruct x as [p|p|]; cbn [digits2_pos shr_1]; intros Hd.
  - exists p, true, (r || s). split; [reflexivity|lia].
  - exists p, false, (r || s). split; [reflexivity|lia].
  - lia.
Qed.

Lemma iter_shr_1_positive (n : nat) (x : positive) (r s : bool) :
  Z.of_nat n < Z.pos (digits2_pos x) ->
  exists y r' s',
    Nat.iter n shr_1 {| shr_m := Z.pos x; shr_r := r; shr_s := s |}
      = {| shr_m := Z.pos y; shr_r := r'; shr_s := s' |}
    /\ Z.pos (digits2_pos y) = Z.pos (digits2_pos x) - Z.of_nat n.
Proof.
  induction n as [|n IH]; intros Hn.
  - exists x, r, s. split; [reflexivity|lia].
  - destruct IH as (y & r' & s' & Hy & Hd); [lia|].
    cbn [Nat.iter nat_rect]. unfold Nat.iter in Hy. rewrite Hy.
    destruct (shr_1_positive y r' s') as (y' & r'' & s'' & Hy' & Hd'); [lia|].
    exists y', r'', s''. split; [exact Hy'|lia].
Qed.

(** Shifting right to the canonical exponent keeps a mantissa positive, and
    keeps the sum of exponent and number of digits. *)
Lemma shr_fexp_positive (x : positive) (e : Z) (l : location) :
  emin prec emax < e + Z.pos (digits2_pos x) ->
  exists y r s e',
    shr_fexp prec emax (Z.pos x) e l
      = ({| shr_m := Z.pos y; shr_r := r; shr_s := s |}, e')
    /\ e' + Z.pos (digits2_pos y) = e + Z.pos (digits2_pos x).
Proof.
  intros He. unfold shr_fexp, shr. cbn [Zdigits2].
  set (n := fexp prec emax (Z.pos (digits2_pos x) + e) - e).
  assert (Hn : n < Z.pos (digits2_pos x)) by (unfold n, fexp, prec in *; lia).
  destruct (shr_record_of_loc (Z.pos x) l) as [m r s] eqn:Hrec.
  assert (m = Z.pos x) as -> by (destruct l as [|[]]; simpl in Hrec; congruence).
  destruct n as [|p|p] eqn:En.
  - exists x, r, s, e. split; [reflexivity|lia].
  - rewrite iter_pos_nat.
    destruct (iter_shr_1_positive (Pos.to_nat p) x r s) as (y & r' & s' & -> & Hd); [lia|].
    exists y, r', s', (e + Z.pos p). split; [reflexivity|lia].
  - exists x, r, s, e. split; [reflexivity|lia].
Qed.

Lemma round_nearest_even_positive (y : positive) (l : location) :
  exists y', round_nearest_even (Z.pos y) l = Z.pos y'
             /\ Z.pos (digits2_pos y) <= Z.pos (digits2_pos y').
Proof.
  assert (Hs : exists y', Z.pos y + 1 = Z.pos y'
                          /\ Z.pos (digits2_pos y) <= Z.pos (digits2_pos y')).
  { exists (Pos.succ y). split; [lia|apply digits2_pos_succ]. }
  destruct l as [|[]]; cbn [round_nearest_even].
  - exists y. split; [reflexivity|lia].
  - destruct (Z.even (Z.pos y)); [exists y; split; [reflexivity|lia]|exact Hs].
  - exists y. split; [reflexivity|lia].
  - exact Hs.
Qed.

(** Rounding a positive mantissa never yields a zero or a NaN: the sign is
    kept on a finite number or an infinity. *)
Lemma binary_round_aux_signed (sx : bool) (x : positive) (e : Z) (l : location) :
  emin prec emax < e + Z.pos (digits2_pos x) ->
  (exists m e', binary_round_aux prec emax sx (Z.pos x) e l = S754_finite sx m e')
  \/ binary_round_aux prec emax sx (Z.pos x) e l = S754_infinity sx.
Proof.
  intros He. unfold binary_round_aux.
  destruct (shr_fexp_positive x e l He) as (y & r & s & e1 & -> & H1).
  cbn [shr_m].
  destruct (round_nearest_even_positive y
              (loc_of_shr_record {| shr_m := Z.pos y; shr_r := r; shr_s := s |}))
    as (y' & -> & Hy').
  destruct (shr_fexp_positive y' e1 loc_Exact) as (y2 & r2 & s2 & e2 & -> & H2); [lia|].
  cbn [shr_m]. destruct (e2 <=? emax - prec); eauto.
Qed.

Lemma binary_round_signed (sx : bool) (x : positive) :
  (exists m e, binary_round prec emax sx x 0 = S754_finite sx m e)
  \/ binary_round prec emax sx x 0 = S754_infinity sx.
Proof.
  unfold binary_round, shl_align.
  destruct (fexp prec emax (Z.pos (digits2_pos x) + 0) - 0) as [|d|d] eqn:Ed;
    apply binary_round_aux_signed.
  - unfold emin, prec, emax. lia.
  - unfold emin, prec, emax. lia.
  - rewrite digits2_pos_shl. revert Ed. unfold fexp, emin, prec, emax. lia.
Qed.

(** The float of a negative integer is negative or minus infinity. *)
Lemma float_of_Z_negative (z : Z) :
  z < 0 -> SFltb (float_of_Z z) (S754_zero false) = true.
Proof.
  destruct z as [|p|p]; try lia. intros _.
  unfold float_of_Z, binary_normalize.
  destruct (binary_round_signed true p) as [(m & e & ->)| ->]; reflexivity.
Qed.

(** ** Validation: one failing field fails the whole construction *)

Section ValidationFacts.
Context `{PyRuntime}.

Lemma validate_fields_error {T} (co : T -> value -> vresult value)
    (fs : list (string * field_info T)) (kwargs : dict)
    (name : string) (fi : field_info T) (es0 : list error_detail) (e : error_detail) :
  In (name, fi) fs ->
  validate_field co name fi kwargs = Err es0 ->
  In e es0 ->
  exists es, validate_fields co fs kwargs = Err es /\ In e es.
Proof.
  induction fs as [|[n f] fs IH]; simpl; [tauto|].
  intros [Heq|Hin] Hv He.
  - inversion Heq; subst n f. rewrite Hv.
    destruct (validate_fields co fs kwargs); simpl; eexists; split; eauto.
    apply in_or_app; now left.
  - destruct (IH Hin Hv He) as (es & -> & Hes).
    destruct (validate_field co n f kwargs); simpl; eexists; split; eauto.
    apply in_or_app; now right.
Qed.

Lemma construct_error (m : model) (kwargs : dict)
    (name : string) (fi : field_info ftype) (es0 : list error_detail) (e : error_detail) :
  In (name, fi) (m_fields m) ->
  validate_field coerce name fi kwargs = Err es0 ->
  In e es0 ->
  exists es, construct m kwargs = Err (ValidationError es) /\ In e es.
Proof.
  intros Hin Hv He. unfold construct.
  destruct (validate_fields_error coerce _ kwargs _ _ _ _ Hin Hv He) as (es & -> & Hes).
  eauto.
Qed.

Lemma validate_field_missing {T} (co : T -> value -> vresult value)
    (name : string) (fi : field_info T) (kwargs : dict) :
  f_default fi = Required ->
  dict_get name kwargs = None ->
  validate_field co name fi kwargs = Err [([LKey name], missing)].
Proof. intros Hd Hk. unfold validate_field. now rewrite Hk, Hd. Qed.

(** A value outside the literals of a [Literal] annotation is rejected. *)
Lemma coerce_literal_outside (opts : list string) (v : value) :
  (forall s, In s opts -> v <> VStr s) ->
  coerce_literal opts v = fail_with literal_error.
Proof.
  intros Hout. destruct v; simpl; auto.
  destruct (existsb (String.eqb s) opts) eqn:E; auto.
  apply existsb_exists in E as (s' & Hin & Heq).
  apply String.eqb_eq in Heq. subst s'. now destruct (Hout s Hin).
Qed.

Lemma coerce_literal_inside (opts : list string) (s : string) :
  In s opts -> coerce_literal opts (VStr s) = Ok (VStr s).
Proof.
  intros Hin. simpl.
  replace (existsb (String.eqb s) opts) with true; auto.
  symmetry. apply existsb_exists. exists s. split; auto. apply String.eqb_refl.
Qed.

(** A float below zero fails the bound [ge=0]. *)
Lemma check_ge_negative (f : spec_float) :
  SFltb f (S754_zero false) = true ->
  check_ge (Some 0) (VFloat f) = fail_with greater_than_equal.
Proof.
  unfold check_ge, SFltb, SFleb.
  destruct f as [s|s| |s m e]; simpl; try discriminate; destruct s; simpl; auto; discriminate.
Qed.

End ValidationFacts.

(** C7. For every record definition, a construction that omits a field
    declared as required fails with ValidationError, and the error details
    report that field as missing (so for Bot without [name], Team without
    [name], and every required field of the other kinds). *)
Theorem required_field_omitted `{PyRuntime} (m : model) (fname : string)
    (fi : field_info ftype) (kwargs : dict) :
  In (fname, fi) (m_fields m) ->
  f_default fi = Required ->
  dict_get fname kwargs = None ->
  exists es, construct m kwargs = Err (ValidationError es)
             /\ In ([LKey fname], missing) es.
Proof.
  intros Hin Hreq Hnone.
  eapply construct_error; eauto using validate_field_missing.
  now left.
Qed.

Lemma required_field_omitted_witness :
  (exists es, @construct no_parsing Bot [("username", VStr "buddy_bot")] = Err (ValidationError es)
              /\ In ([LKey "name"], missing) es)
  /\ (exists es, @construct no_parsing Team [] = Err (ValidationError es)
                 /\ In ([LKey "name"], missing) es).
Proof.
  split.
  - apply (@required_field_omitted no_parsing Bot "name"
             (required TStr "Display name for this bot")); [now left | reflexivity | reflexivity].
  - apply (@required_field_omitted no_parsing Team "name"
             (required TStr "Team name")); [now left | reflexivity | reflexivity].
Defined.

(** The required fields of each of the ten record definitions. *)
Lemma required_fields_of_ALL_MODELS :
  map (fun nm => (fst nm, required_names (m_fields (snd nm)))) ALL_MODELS =
  [ ("Bot", ["name"]);
    ("Fan", ["bot_id"; "tg_user_id"]);
    ("MediaItem", ["bot_id"; "type"]);
    ("ScriptStep", []);
    ("Script", ["bot_id"; "name"]);
    ("Conversation", ["bot_id"; "fan_id"]);
    ("Message", ["conversation_id"; "direction"]);
    ("Team", ["name"]);
    ("TeamMember", ["team_id"; "user_id"]);
    ("AnalyticsDaily", ["bot_id"; "date"]) ].
Proof. reflexivity. Qed.

(** ** MediaItem and Message construction *)

(** C1. Constructing a MediaItem fails with ValidationError when [type] is
    anything but one of photo, video, document (a literal error on [type]);
    when [price] is supplied as a value that reads as a float below zero (a
    bound error on [price]); and in particular when [price] is any negative
    integer (a bound error, or a float error when the integer is beyond the
    range of floats). It succeeds when [bot_id] and [type] are supplied
    validly, [price] is 0 and no other field is supplied, the instance then
    carrying price 0.0 and the declared defaults. *)
Theorem MediaItem_construction `{PyRuntime} :
  (forall (kwargs : dict) (v : value),
      dict_get "type" kwargs = Some v ->
      (forall s, In s media_types -> v <> VStr s) ->
      exists es, construct MediaItem kwargs = Err (ValidationError es)
                 /\ In ([LKey "type"], literal_error) es)
  /\ (forall (kwargs : dict) (v : value) (f : spec_float),
      dict_get "price" kwargs = Some v ->
      coerce (TOptional TFloat) v = Ok (VFloat f) ->
      SFltb f (S754_zero false) = true ->
      exists es, construct MediaItem kwargs = Err (ValidationError es)
                 /\ In ([LKey "price"], greater_than_equal) es)
  /\ (forall (kwargs : dict) (z : Z),
      dict_get "price" kwargs = Some (VInt z) ->
      z < 0 ->
      exists es t, construct MediaItem kwargs = Err (ValidationError es)
                   /\ In ([LKey "price"], t) es
                   /\ (t = greater_than_equal \/ t = float_type))
  /\ (forall (kwargs : dict) (b t : string),
      dict_get "bot_id" kwargs = Some (VStr b) ->
      dict_get "type" kwargs = Some (VStr t) ->
      In t media_types ->
      dict_get "price" kwargs = Some (VInt 0) ->
      dict_get "caption" kwargs = None ->
      dict_get "external_url" kwargs = None ->
      dict_get "telegram_file_id" kwargs = None ->
      dict_get "tags" kwargs = None ->
      dict_get "thumbnail_url" kwargs = None ->
      construct MediaItem kwargs =
        Ok [("bot_id", VStr b); ("type", VStr t); ("caption", VNone);
            ("price", VFloat (S754_zero false)); ("external_url", VNone);
            ("telegram_file_id", VNone); ("tags", VList []);
            ("thumbnail_url", VNone)]).
Proof.
  split; [|split; [|split]].
  - intros kwargs v Hty Hout.
    eapply (construct_error MediaItem kwargs "type").
    + right; left; reflexivity.
    + unfold validate_field. rewrite Hty. cbn [f_type required coerce].
      rewrite (coerce_literal_outside ["photo"; "video"; "document"] _ Hout).
      reflexivity.
    + now left.
  - intros kwargs v f Hp Hco Hneg.
    eapply (construct_error MediaItem kwargs "price").
    + do 3 right; left; reflexivity.
    + unfold validate_field. rewrite Hp. cbn [f_type f_ge]. rewrite Hco.
      rewrite (check_ge_negative _ Hneg). reflexivity.
    + now left.
  - intros kwargs z Hp Hneg.
    pose (fi := Field (TOptional TFloat) (Default VNone) (Some 0)
                  (Some "Price in Stars or currency equivalent")).
    destruct (float_is_finite (float_of_Z z)) eqn:Hfin.
    + destruct (construct_error MediaItem kwargs "price" fi
                  [([LKey "price"], greater_than_equal)]
                  ([LKey "price"], greater_than_equal)) as (es & Hes & Hin).
      * do 3 right; left; reflexivity.
      * unfold validate_field, fi. rewrite Hp. cbn [f_type f_ge coerce coerce_float].
        rewrite Hfin. rewrite (check_ge_negative _ (float_of_Z_negative z Hneg)).
        reflexivity.
      * now left.
      * exists es, greater_than_equal. auto.
    + destruct (construct_error MediaItem kwargs "price" fi
                  [([LKey "price"], float_type)]
                  ([LKey "price"], float_type)) as (es & Hes & Hin).
      * do 3 right; left; reflexivity.
      * unfold validate_field, fi. rewrite Hp. cbn [f_type f_ge coerce coerce_float].
        rewrite Hfin. reflexivity.
      * now left.
      * exists es, float_type. auto.
  - intros kwargs b t Hb Ht Hin Hp Hc He Hf Htags Hth.
    unfold construct. cbn [m_fields MediaItem validate_fields].
    unfold validate_field.
    rewrite Hb, Ht, Hp, Hc, He, Hf, Htags, Hth.
    cbn [f_type f_ge f_default required optional coerce coerce_str].
    rewrite (coerce_literal_inside ["photo"; "video"; "document"] _ Hin).
    reflexivity.
Qed.

Lemma MediaItem_construction_witness :
  (exists es, @construct no_parsing MediaItem
                [("bot_id", VStr "bot1"); ("type", VStr "audio")] = Err (ValidationError es)
              /\ In ([LKey "type"], literal_error) es)
  /\ (exists es, @construct no_parsing MediaItem
                   [("bot_id", VStr "bot1"); ("type", VStr "photo"); ("price", VInt (-1))]
                 = Err (ValidationError es)
                 /\ In ([LKey "price"], greater_than_equal) es)
  /\ (exists es t, @construct no_parsing MediaItem
                     [("bot_id", VStr "bot1"); ("type", VStr "photo"); ("price", VInt (-5))]
                   = Err (ValidationError es)
                   /\ In ([LKey "price"], t) es
                   /\ (t = greater_than_equal \/ t = float_type))
  /\ @construct no_parsing MediaItem
       [("bot_id", VStr "bot1"); ("type", VStr "photo"); ("price", VInt 0)] =
     Ok [("bot_id", VStr "bot1"); ("type", VStr "photo"); ("caption", VNone);
         ("price", VFloat (S754_zero false)); ("external_url", VNone);
         ("telegram_file_id", VNone); ("tags", VList []);
         ("thumbnail_url", VNone)].
Proof.
  pose proof (@MediaItem_construction no_parsing) as (Htype & Hprice & Hint & Hok).
  split; [|split; [|split]].
  - apply (Htype _ (VStr "audio")); [reflexivity|].
    intros s [<-|[<-|[<-|[]]]]; discriminate.
  - apply (Hprice _ (VInt (-1)) (S754_finite true 4503599627370496 (-52)));
      reflexivity.
  - apply (Hint _ (-5)); reflexivity.
  - apply (Hok _ "bot1" "photo"); try reflexivity. now left.
Defined.

(** C5. Constructing a Message fails with ValidationError when [direction]
    is anything but inbound or outbound; with [direction] inbound, a
    [conversation_id] and nothing else supplied it succeeds, and the
    instance has [paid] equal to false. *)
Theorem Message_construction `{PyRuntime} :
  (forall (kwargs : dict) (v : value),
      dict_get "direction" kwargs = Some v ->
      (forall s, In s directions -> v <> VStr s) ->
      exists es, construct Message kwargs = Err (ValidationError es)
                 /\ In ([LKey "direction"], literal_error) es)
  /\ (forall (kwargs : dict) (c : string),
      dict_get "conversation_id" kwargs = Some (VStr c) ->
      dict_get "direction" kwargs = Some (VStr "inbound") ->
      dict_get "text" kwargs = None ->
      dict_get "media_item_id" kwargs = None ->
      dict_get "price" kwargs = None ->
      dict_get "paid" kwargs = None ->
      dict_get "telegram_message_id" kwargs = None ->
      dict_get "telegram_file_id" kwargs = None ->
      exists inst, construct Message kwargs = Ok inst
                   /\ dict_get "direction" inst = Some (VStr "inbound")
                   /\ dict_get "paid" inst = Some (VBool false)).
Proof.
  split.
  - intros kwargs v Hd Hout.
    eapply (construct_error Message kwargs "direction").
    + right; left; reflexivity.
    + unfold validate_field. rewrite Hd. cbn [f_type required coerce].
      rewrite (coerce_literal_outside ["inbound"; "outbound"] _ Hout).
      reflexivity.
    + now left.
  - intros kwargs c Hc Hd Ht Hm Hp Hpaid Hid Hfile.
    unfold construct. cbn [m_fields Message validate_fields].
    unfold validate_field.
    rewrite Hc, Hd, Ht, Hm, Hp, Hpaid, Hid, Hfile.
    eexists. split; [reflexivity|]. split; reflexivity.
Qed.

Lemma Message_construction_witness :
  (exists es, @construct no_parsing Message
                [("conversation_id", VStr "c1"); ("direction", VStr "sideways")]
              = Err (ValidationError es)
              /\ In ([LKey "direction"], literal_error) es)
  /\ (exists inst, @construct no_parsing Message
                     [("conversation_id", VStr "c1"); ("direction", VStr "inbound")]
                   = Ok inst
                   /\ dict_get "direction" inst = Some (VStr "inbound")
                   /\ dict_get "paid" inst = Some (VBool false)).
Proof.
  pose proof (@Message_construction no_parsing) as (Hdir & Hok).
  split.
  - apply (Hdir _ (VStr "sideways")); [reflexivity|].
    intros s [<-|[<-|[]]]; discriminate.
  - apply (Hok _ "c1"); reflexivity.
Defined.

(** ** Persistence gateway *)

Lemma filter_none {A} (p : A -> bool) (l : list A) :
  Forall (fun x => p x = false) l -> List.filter p l = [].
Proof.
  induction 1 as [|x l Hx _ IH]; simpl; [reflexivity|]. now rewrite Hx.
Qed.

Lemma filter_all {A} (p : A -> bool) (l : list A) :
  Forall (fun x => p x = true) l -> List.filter p l = l.
Proof.
  induction 1 as [|x l Hx _ IH]; simpl; [reflexivity|]. now rewrite Hx, IH.
Qed.

(** C3. Whatever the kind, the filter and the limit, when no stored document
    of the kind satisfies the filter, [get_documents] returns the empty
    sequence and raises nothing, in every state of the store: no connection,
    a connection that cannot be reached, or a working one. The state is left
    as it was. *)
Theorem get_documents_no_match (kind : string) (filter_dict : dict) (limit : Z) (w : world) :
  (forall st, w = Some st ->
     Forall (fun doc => matches filter_dict doc = false) (documents st kind)) ->
  get_documents kind filter_dict limit w = (Ok [], w).
Proof.
  intros Hnone. unfold get_documents.
  destruct w as [st|]; [|reflexivity].
  destruct (reachable st); [|reflexivity].
  rewrite (filter_none _ _ (Hnone st eq_refl)). now rewrite take_nil.
Qed.

Lemma get_documents_no_match_witness :
  get_documents "mediaitem" [("bot_id", VStr "bot9")] 50 (Some demo_store)
    = (Ok [], Some demo_store)
  /\ get_documents "mediaitem" [("bot_id", VStr "bot9")] 50 (Some (offline demo_store))
    = (Ok [], Some (offline demo_store))
  /\ get_documents "mediaitem" [("bot_id", VStr "bot9")] 50 None = (Ok [], None).
Proof.
  split; [|split]; apply get_documents_no_match.
  - intros st [= <-]. vm_compute. repeat constructor.
  - intros st [= <-]. vm_compute. repeat constructor.
  - intros st [=].
Defined.

(** Without a usable store a read yields the empty sequence even when
    documents would match. *)
Lemma get_documents_degrades (kind : string) (filter_dict : dict) (limit : Z) (w : world) :
  (forall st, w = Some st -> reachable st = false) ->
  get_documents kind filter_dict limit w = (Ok [], w).
Proof.
  intros Hdown. unfold get_documents. destruct w as [st|]; [|reflexivity].
  now rewrite (Hdown st eq_refl).
Qed.

(** C4. Whatever the kind and the record, [create_document] called with no
    store connection fails with StorageUnavailable and nothing else; with a
    connection whose insert fails it fails with StorageError. Neither
    changes the state. *)
Theorem create_document_failure (kind : string) (record : dict) :
  create_document kind record None = (Err StorageUnavailable, None)
  /\ (forall st, reachable st = false ->
        create_document kind record (Some st) = (Err StorageError, Some st)).
Proof.
  split; [reflexivity|].
  intros st Hdown. unfold create_document. now rewrite Hdown.
Qed.

Lemma create_document_failure_witness :
  create_document "mediaitem" [("bot_id", VStr "bot1"); ("type", VStr "photo")] None
    = (Err StorageUnavailable, None)
  /\ create_document "mediaitem" [("bot_id", VStr "bot1"); ("type", VStr "photo")]
       (Some (offline demo_store))
     = (Err StorageError, Some (offline demo_store)).
Proof.
  split.
  - apply (proj1 (create_document_failure _ _)).
  - apply (proj2 (create_document_failure _ _)). reflexivity.
Defined.

(** With a working store the insert succeeds: the document is appended to
    the collection of the lower-cased kind under a fresh identifier, whose
    string is returned. *)
Lemma create_document_success (kind : string) (record : dict) (st : store) :
  reachable st = true ->
  create_document kind record (Some st) =
    (Ok (objectid_str (next_id st)),
     Some {| collections :=
               <[collection_of kind :=
                   (documents st kind ++ [("_id", VObjectId (next_id st)) :: record])%list]>
               (collections st);
             next_id := N.succ (next_id st);
             reachable := true |}).
Proof. intros Hup. unfold create_document. now rewrite Hup. Qed.

Lemma documents_after_insert (st : store) (kind kind' : string) (docs : list dict)
    (n : N) (r : bool) :
  documents {| collections := <[collection_of kind := docs]> (collections st);
               next_id := n; reachable := r |} kind' =
  if decide (collection_of kind = collection_of kind') then docs else documents st kind'.
Proof.
  unfold documents. cbn [collections]. rewrite lookup_insert.
  destruct (decide (collection_of kind = collection_of kind')); reflexivity.
Qed.

(** ** Listing handlers *)

Section ListingFacts.
Context `{PyRuntime}.

Lemma stringify_id_inv (it r : dict) (w w' : world) :
  stringify_id it w = (Ok r, w') -> w' = w /\ id_is_string r.
Proof.
  unfold stringify_id. destruct (dict_get "_id" it) as [v|]; [|discriminate].
  intros [= <- <-]. split; [reflexivity|].
  exists (py_str v). apply dict_get_set_eq.
Qed.

Lemma for_each_inv {A B} (body : A -> App B) (P : B -> Prop) :
  (forall x w y w', body x w = (Ok y, w') -> w' = w /\ P y) ->
  forall xs w ys w', for_each body xs w = (Ok ys, w') -> w' = w /\ Forall P ys.
Proof.
  intros Hbody. induction xs as [|x xs IH]; intros w ys w'; cbn [for_each].
  - intros [= <- <-]. auto.
  - unfold bind at 1. destruct (body x w) as [[y|e] w1] eqn:Ex; [|discriminate].
    apply Hbody in Ex as [-> Py].
    unfold bind at 1. destruct (for_each body xs w) as [[zs|e] w2] eqn:Exs; [|discriminate].
    apply IH in Exs as [-> Pzs]. intros [= <- <-]. auto.
Qed.

Lemma for_each_total {A B} (body : A -> App B) (Q : A -> Prop) (w : world) :
  (forall x, Q x -> exists y, body x w = (Ok y, w)) ->
  forall xs, Forall Q xs -> exists ys, for_each body xs w = (Ok ys, w).
Proof.
  intros Hbody. induction 1 as [|x xs Hx _ [ys IH]]; cbn [for_each].
  - now exists [].
  - destruct (Hbody x Hx) as [y Hy]. exists (y :: ys).
    unfold bind at 1. rewrite Hy. unfold bind at 1. now rewrite IH.
Qed.

Lemma get_documents_inv (kind : string) (filter_dict : dict) (limit : Z)
    (w w' : world) (r : result exn (list dict)) :
  get_documents kind filter_dict limit w = (r, w') ->
  w' = w /\ exists items, r = Ok items /\
    forall it, In it items -> exists st, w = Some st /\ In it (documents st kind).
Proof.
  unfold get_documents. destruct w as [st|].
  - destruct (reachable st); intros [= <- <-]; split; auto; eexists; split; eauto.
    + intros it Hin. exists st. split; [reflexivity|].
      apply list_elem_of_In in Hin.
      apply (subseteq_take (Z.to_nat limit)) in Hin.
      apply list_elem_of_In in Hin. now apply filter_In in Hin as [Hin _].
    + intros it [].
  - intros [= <- <-]. split; auto. eexists; split; eauto. intros it [].
Qed.

(** The shape shared by the four listing handlers. *)
Lemma run_listing_unfold (q : listing) :
  exists kind filter_dict limit,
    run_listing q = (items <- get_documents kind filter_dict limit ;;
                     for_each stringify_id items).
Proof. destruct q; cbn; eauto. Qed.

(** A listing never fails on a store whose documents all carry an
    identifier, and it leaves the store as it was. *)
Lemma run_listing_total (q : listing) (w : world) :
  wf_world w -> exists items, run_listing q w = (Ok items, w).
Proof.
  intros Hwf. destruct (run_listing_unfold q) as (kind & flt & limit & ->).
  unfold bind. destruct (get_documents kind flt limit w) as [r w1] eqn:Eg.
  apply get_documents_inv in Eg as (-> & items & -> & Hsub).
  apply (for_each_total stringify_id has_id).
  - intros it [v Hv]. unfold stringify_id. rewrite Hv. eauto.
  - apply List.Forall_forall. intros it Hin.
    destruct (Hsub it Hin) as (st & -> & Hdoc).
    specialize (Hwf st kind eq_refl).
    rewrite List.Forall_forall in Hwf. now apply Hwf.
Qed.

End ListingFacts.

(** The store starts out well formed and every insert keeps it so: an
    inserted document is given its identifier by the store. *)
Lemma wf_world_initial (n : N) (r : bool) : wf_world (Some (Store ∅ n r)).
Proof.
  intros st kind [= <-]. unfold documents. cbn. rewrite lookup_empty. constructor.
Qed.

Lemma wf_world_unset : wf_world None.
Proof. intros st kind [=]. Qed.

Lemma create_document_wf (kind : string) (record : dict) (w : world) :
  wf_world w -> wf_world (snd (create_document kind record w)).
Proof.
  intros Hwf. unfold create_document.
  destruct w as [st|]; [|exact Hwf].
  destruct (reachable st); [|exact Hwf].
  intros st' kind' [= <-].
  rewrite documents_after_insert. case_decide.
  - apply Forall_app. split; [apply (Hwf st kind eq_refl)|].
    constructor; [|constructor]. now exists (VObjectId (next_id st)).
  - apply (Hwf st kind' eq_refl).
Qed.

(** A media listing with nothing to match is empty and fails in no state of
    the store. *)
Lemma list_media_no_match `{PyRuntime} (bot_id : option string) (limit : option Z)
    (w : world) :
  (forall st, w = Some st ->
     Forall (fun doc => matches (media_filter bot_id) doc = false)
            (documents st "mediaitem")) ->
  list_media bot_id limit w = (Ok [], w).
Proof.
  intros Hnone. unfold list_media, bind, get_documents.
  destruct w as [st|]; [|reflexivity].
  destruct (reachable st); [|reflexivity].
  rewrite (filter_none _ _ (Hnone st eq_refl)). now rewrite take_nil.
Qed.

(** C9. In the media listing an empty [bot_id] is the same request as no
    [bot_id]: the filter is empty, and on a working store the result is the
    first [limit] media documents of the collection, whichever bot they
    belong to, each with its identifier turned into a string. *)
Theorem list_media_empty_bot_id `{PyRuntime} (limit : option Z) (w : world) :
  media_filter (Some "") = []
  /\ list_media (Some "") limit w = list_media None limit w
  /\ (forall st, w = Some st -> reachable st = true ->
        list_media (Some "") limit w =
        for_each stringify_id
          (take (Z.to_nat (default 50 limit)) (documents st "mediaitem")) w).
Proof.
  split; [reflexivity|]. split; [reflexivity|].
  intros st -> Hup. unfold list_media, bind, get_documents. rewrite Hup.
  cbn [media_filter]. rewrite filter_all; [reflexivity|].
  apply List.Forall_forall. reflexivity.
Qed.

Lemma list_media_empty_bot_id_witness :
  @list_media no_parsing (Some "") None (Some demo_store) =
  (Ok [ [("_id", VStr "000000000000000000000001"); ("bot_id", VStr "bot1");
         ("type", VStr "photo")];
        [("_id", VStr "000000000000000000000002"); ("bot_id", VStr "bot2");
         ("type", VStr "video")] ],
   Some demo_store).
Proof.
  rewrite (proj2 (proj2 (@list_media_empty_bot_id no_parsing None (Some demo_store)))
             demo_store eq_refl eq_refl).
  vm_compute. reflexivity.
Defined.

(** A non-empty [bot_id] does filter: only the items of that bot come back. *)
Example list_media_bot2 :
  fst (@list_media no_parsing (Some "bot2") None (Some demo_store)) =
  Ok [ [("_id", VStr "000000000000000000000002"); ("bot_id", VStr "bot2");
        ("type", VStr "video")] ].
Proof. vm_compute. reflexivity. Qed.

(** ** Request payloads and the handlers that store them *)

Section PayloadFacts.
Context `{PyRuntime}.

Lemma both_ok_inv {A B C} (f : A -> B -> C) (r : vresult A) (s : vresult B) (c : C) :
  both f r s = Ok c -> exists a b, r = Ok a /\ s = Ok b /\ c = f a b.
Proof. destruct r, s; simpl; intros [=]; subst; eauto. Qed.

Lemma at_loc_ok_inv {A} (i : loc_item) (r : vresult A) (a : A) :
  at_loc i r = Ok a -> r = Ok a.
Proof. destruct r; simpl; congruence. Qed.

Lemma validate_field_ok_inv {T} (co : T -> value -> vresult value)
    (name : string) (fi : field_info T) (kwargs : dict) (v : value) :
  validate_field co name fi kwargs = Ok v ->
  (exists x v', dict_get name kwargs = Some x /\ co (f_type fi) x = Ok v'
                /\ check_ge (f_ge fi) v' = Ok v)
  \/ (dict_get name kwargs = None
      /\ (f_default fi = Default v \/ (f_default fi = DefaultFactoryList /\ v = VList []))).
Proof.
  unfold validate_field. destruct (dict_get name kwargs) as [x|].
  - intros Hv. apply at_loc_ok_inv in Hv.
    destruct (co (f_type fi) x) as [v'|] eqn:E; [|discriminate]. left. eauto.
  - destruct (f_default fi); intros Hv; try discriminate;
      injection Hv as <-; right; auto.
Qed.

(** What a validated value of each scalar annotation looks like. *)
Lemma coerce_str_shape (x v : value) :
  coerce_str x = Ok v -> exists s, v = VStr s.
Proof. destruct x; simpl; intros [=]; subst; eauto. Qed.

Lemma coerce_float_shape (x v : value) :
  coerce_float x = Ok v -> exists f, v = VFloat f.
Proof.
  destruct x; simpl; try discriminate.
  - intros [=]; subst; eauto.
  - destruct (float_is_finite (float_of_Z z)); intros [=]; subst; eauto.
  - intros [=]; subst; eauto.
  - destruct (str_to_float s); intros [=]; subst; eauto.
Qed.

Lemma coerce_bool_shape (x v : value) :
  coerce_bool x = Ok v -> exists b, v = VBool b.
Proof.
  destruct x; simpl; try discriminate.
  - intros [=]; subst; eauto.
  - destruct (z =? 0); [intros [=]; subst; eauto|].
    destruct (z =? 1); intros [=]; subst; eauto.
  - destruct (float_as_int f) as [z|]; [|discriminate].
    destruct (z =? 0); [intros [=]; subst; eauto|].
    destruct (z =? 1); intros [=]; subst; eauto.
  - destruct (str_to_bool s); intros [=]; subst; eauto.
Qed.

(** What a validated field of a request model can hold. *)
Lemma plain_str_shape (name : string) (kwargs : dict) (v : value) :
  validate_field coerce name (plain TStr) kwargs = Ok v ->
  exists s, v = VStr s.
Proof.
  intros Hv. apply validate_field_ok_inv in Hv
    as [(x & v' & _ & Hco & Hge)|(_ & [Hd|[Hd _]])]; try discriminate.
  injection Hge as <-. now apply coerce_str_shape in Hco.
Qed.

Lemma plain_optional_str_shape (name : string) (kwargs : dict) (v : value) :
  validate_field coerce name (plain_optional TStr) kwargs = Ok v ->
  exists o, v = optional_value VStr o.
Proof.
  intros Hv. apply validate_field_ok_inv in Hv
    as [(x & v' & _ & Hco & Hge)|(_ & [Hd|[Hd _]])]; try discriminate.
  - injection Hge as <-. cbn [f_type plain_optional coerce] in Hco.
    destruct x; try (apply coerce_str_shape in Hco as [? ->]; now eexists (Some _)).
    injection Hco as <-. now exists None.
  - injection Hd as <-. now exists None.
Qed.

Lemma plain_optional_float_shape (name : string) (kwargs : dict) (v : value) :
  validate_field coerce name (plain_optional TFloat) kwargs = Ok v ->
  exists o, v = optional_value VFloat o.
Proof.
  intros Hv. apply validate_field_ok_inv in Hv
    as [(x & v' & _ & Hco & Hge)|(_ & [Hd|[Hd _]])]; try discriminate.
  - injection Hge as <-. cbn [f_type plain_optional coerce] in Hco.
    destruct x; try (apply coerce_float_shape in Hco as [? ->]; now eexists (Some _)).
    injection Hco as <-. now exists None.
  - injection Hd as <-. now exists None.
Qed.

Lemma bool_default_shape (name : string) (d : bool) (kwargs : dict) (v : value) :
  validate_field coerce name (Field TBool (Default (VBool d)) None None) kwargs = Ok v ->
  exists b, v = VBool b.
Proof.
  intros Hv. apply validate_field_ok_inv in Hv
    as [(x & v' & _ & Hco & Hge)|(_ & [Hd|[Hd _]])]; try discriminate.
  - injection Hge as <-. now apply coerce_bool_shape in Hco.
  - injection Hd as <-. eauto.
Qed.

Lemma construct_ok_inv (m : model) (kwargs inst : dict) :
  construct m kwargs = Ok inst ->
  validate_fields coerce (m_fields m) kwargs = Ok inst.
Proof.
  unfold construct. destruct (validate_fields coerce (m_fields m) kwargs); congruence.
Qed.

(** An accepted send-message request. *)
Lemma SendMessageRequest_shape (body payload : dict) :
  construct SendMessageRequest body = Ok payload ->
  exists (c : string) (t m : option string) (b : bool) (p : option spec_float),
    payload = [("conversation_id", VStr c);
               ("text", optional_value VStr t);
               ("media_item_id", optional_value VStr m);
               ("paid", VBool b);
               ("price", optional_value VFloat p)].
Proof.
  intros Hc. apply construct_ok_inv in Hc. cbn [m_fields SendMessageRequest validate_fields] in Hc.
  apply both_ok_inv in Hc as (v1 & r1 & H1 & Hc & ->).
  apply both_ok_inv in Hc as (v2 & r2 & H2 & Hc & ->).
  apply both_ok_inv in Hc as (v3 & r3 & H3 & Hc & ->).
  apply both_ok_inv in Hc as (v4 & r4 & H4 & Hc & ->).
  apply both_ok_inv in Hc as (v5 & r5 & H5 & Hc & ->).
  injection Hc as <-.
  apply plain_str_shape in H1 as [c ->].
  apply plain_optional_str_shape in H2 as [t ->].
  apply plain_optional_str_shape in H3 as [m ->].
  apply bool_default_shape in H4 as [b ->].
  apply plain_optional_float_shape in H5 as [p ->].
  now exists c, t, m, b, p.
Qed.

(** An accepted bot-creation request. *)
Lemma CreateBotRequest_shape (body payload : dict) :
  construct CreateBotRequest body = Ok payload ->
  exists (n : string) (u : option string),
    payload = [("name", VStr n); ("username", optional_value VStr u)].
Proof.
  intros Hc. apply construct_ok_inv in Hc. cbn [m_fields CreateBotRequest validate_fields] in Hc.
  apply both_ok_inv in Hc as (v1 & r1 & H1 & Hc & ->).
  apply both_ok_inv in Hc as (v2 & r2 & H2 & Hc & ->).
  injection Hc as <-.
  apply plain_str_shape in H1 as [n ->].
  apply plain_optional_str_shape in H2 as [u ->].
  now exists n, u.
Qed.

Lemma Message_outbound (c : string) (t m : option string) (b : bool)
    (p : option spec_float) :
  construct Message [
      ("conversation_id", VStr c);
      ("direction", VStr "outbound");
      ("text", optional_value VStr t);
      ("media_item_id", optional_value VStr m);
      ("paid", VBool b);
      ("price", optional_value VFloat p);
      ("telegram_message_id", VInt 123456) ]
  = Ok (outbound_message c t m b p).
Proof. destruct t, m, p; reflexivity. Qed.

Lemma Bot_from_request (n : string) (u : option string) :
  construct Bot [("name", VStr n); ("username", optional_value VStr u)]
  = Ok (new_bot n u).
Proof. destruct u; reflexivity. Qed.

End PayloadFacts.

(** C2. For every accepted send-message request on a working store, the
    message that [send_message] stores has direction outbound and the
    placeholder delivery identifier 123456, and that identifier is returned
    to the caller next to the store's identifier. The only effect is the
    insertion of that one document: nothing is delivered. *)
Theorem send_message_stores_outbound `{PyRuntime} (body payload : dict) (st : store) :
  construct SendMessageRequest body = Ok payload ->
  reachable st = true ->
  exists msg,
    post_messages (VDict body) (Some st) =
      (Ok [("id", VStr (objectid_str (next_id st)));
           ("telegram_message_id", VInt 123456)],
       Some (inserted st "message" msg))
    /\ dict_get "direction" msg = Some (VStr "outbound")
    /\ dict_get "telegram_message_id" msg = Some (VInt 123456)
    /\ dict_get "conversation_id" msg = dict_get "conversation_id" payload.
Proof.
  intros Hreq Hup.
  destruct (SendMessageRequest_shape _ _ Hreq) as (c & t & m & b & p & ->).
  exists (outbound_message c t m b p).
  split; [|repeat split].
  unfold post_messages, parse_body, bind at 1. rewrite Hreq. cbn [ret].
  unfold send_message, getattr, bind, ret, call. cbn [dict_get String.eqb Ascii.eqb Bool.eqb].
  rewrite Message_outbound.
  rewrite (create_document_success _ _ _ Hup).
  reflexivity.
Qed.

Lemma send_message_stores_outbound_witness :
  exists msg,
    @post_messages no_parsing
      (VDict [("conversation_id", VStr "c1"); ("text", VStr "hi")]) (Some demo_store) =
      (Ok [("id", VStr (objectid_str (next_id demo_store)));
           ("telegram_message_id", VInt 123456)],
       Some (inserted demo_store "message" msg))
    /\ dict_get "direction" msg = Some (VStr "outbound")
    /\ dict_get "telegram_message_id" msg = Some (VInt 123456)
    /\ dict_get "conversation_id" msg =
       dict_get "conversation_id"
         [("conversation_id", VStr "c1"); ("text", VStr "hi"); ("media_item_id", VNone);
          ("paid", VBool false); ("price", VNone)].
Proof.
  apply (@send_message_stores_outbound no_parsing); reflexivity.
Defined.

(** Those are the only circumstances in which sending succeeds: the request
    must be accepted and the store must take the insert. *)
Lemma post_messages_ok_inv `{PyRuntime} (body : value) (w w' : world) (resp : dict) :
  post_messages body w = (Ok resp, w') ->
  exists d payload st,
    body = VDict d /\ construct SendMessageRequest d = Ok payload
    /\ w = Some st /\ reachable st = true.
Proof.
  unfold post_messages, parse_body, bind at 1.
  destruct body; try discriminate.
  destruct (construct SendMessageRequest d) as [payload|e] eqn:Hreq;
    [|destruct e; discriminate].
  destruct (SendMessageRequest_shape _ _ Hreq) as (c & t & m & b & p & ->).
  cbn [ret]. unfold send_message, getattr, bind, ret, call.
  cbn [dict_get String.eqb Ascii.eqb Bool.eqb].
  rewrite Message_outbound. unfold create_document.
  destruct w as [st|]; [|discriminate].
  destruct (reachable st) eqn:Hup; [|discriminate].
  intros _. exists d. eexists. exists st. eauto.
Qed.

(** The scenario of the specification: a conversation is created, a message
    with text "hi" is sent to it, and the listing of that conversation shows
    one outbound message with the placeholder delivery identifier. *)
Example conversation_scenario :
  let w0 : world := Some (Store ∅ 0 true) in
  let '(r1, w1) :=
    @post_conversations no_parsing
      (VDict [("bot_id", VStr "bot1"); ("fan_id", VStr "fan1")]) w0 in
  let conv := objectid_str 0 in
  let '(r2, w2) :=
    @post_messages no_parsing
      (VDict [("conversation_id", VStr conv); ("text", VStr "hi")]) w1 in
  r1 = Ok [("id", VStr conv)]
  /\ fst (@list_messages no_parsing conv None w2) =
     Ok [ [("_id", VStr "000000000000000000000001");
           ("conversation_id", VStr conv);
           ("direction", VStr "outbound");
           ("text", VStr "hi");
           ("media_item_id", VNone);
           ("price", VNone);
           ("paid", VBool false);
           ("telegram_message_id", VInt 123456);
           ("telegram_file_id", VNone)] ].
Proof. vm_compute. split; reflexivity. Qed.

(** C10. For every accepted bot-creation request on a working store, the
    bot that is stored has [is_active] true and [token], [team_id] and
    [welcome_message] unset, whatever else the request body carried: only
    [name] and [username] reach the Bot. *)
Theorem create_bot_stores_defaults `{PyRuntime} (body payload : dict) (st : store) :
  construct CreateBotRequest body = Ok payload ->
  reachable st = true ->
  exists (n : string) (u : option string),
    payload = [("name", VStr n); ("username", optional_value VStr u)]
    /\ post_bots (VDict body) (Some st) =
       (Ok [("id", VStr (objectid_str (next_id st)))],
        Some (inserted st "bot"
                [("name", VStr n);
                 ("username", optional_value VStr u);
                 ("token", VNone);
                 ("team_id", VNone);
                 ("welcome_message", VNone);
                 ("is_active", VBool true)])).
Proof.
  intros Hreq Hup.
  destruct (CreateBotRequest_shape _ _ Hreq) as (n & u & ->).
  exists n, u. split; [reflexivity|].
  unfold post_bots, parse_body, bind at 1. rewrite Hreq. cbn [ret].
  unfold create_bot, getattr, bind, ret, call. cbn [dict_get String.eqb Ascii.eqb Bool.eqb].
  rewrite Bot_from_request.
  rewrite (create_document_success _ _ _ Hup).
  reflexivity.
Qed.

Lemma create_bot_stores_defaults_witness :
  exists (n : string) (u : option string),
    [("name", VStr "Buddy"); ("username", VNone)] =
      [("name", VStr n); ("username", optional_value VStr u)]
    /\ @post_bots no_parsing
         (VDict [("name", VStr "Buddy"); ("is_active", VBool false);
                 ("token", VStr "secret"); ("team_id", VStr "t1")])
         (Some demo_store) =
       (Ok [("id", VStr (objectid_str (next_id demo_store)))],
        Some (inserted demo_store "bot"
                [("name", VStr n);
                 ("username", optional_value VStr u);
                 ("token", VNone);
                 ("team_id", VNone);
                 ("welcome_message", VNone);
                 ("is_active", VBool true)])).
Proof.
  apply (@create_bot_stores_defaults no_parsing); reflexivity.
Defined.

Lemma post_bots_ok_inv `{PyRuntime} (body : value) (w w' : world) (resp : dict) :
  post_bots body w = (Ok resp, w') ->
  exists d payload st,
    body = VDict d /\ construct CreateBotRequest d = Ok payload
    /\ w = Some st /\ reachable st = true.
Proof.
  unfold post_bots, parse_body, bind at 1.
  destruct body; try discriminate.
  destruct (construct CreateBotRequest d) as [payload|e] eqn:Hreq;
    [|destruct e; discriminate].
  destruct (CreateBotRequest_shape _ _ Hreq) as (n & u & ->).
  cbn [ret]. unfold create_bot, getattr, bind, ret, call.
  cbn [dict_get String.eqb Ascii.eqb Bool.eqb].
  rewrite Bot_from_request. unfold create_document.
  destruct w as [st|]; [|discriminate].
  destruct (reachable st) eqn:Hup; [|discriminate].
  intros _. exists d. eexists. exists st. eauto.
Qed.

(** ** Schema export *)

Lemma dict_get_app (k : string) (d1 d2 : dict) :
  dict_get k (d1 ++ d2)%list =
  match dict_get k d1 with
  | Some v => Some v
  | None => dict_get k d2
  end.
Proof.
  induction d1 as [|[k' v'] d1 IH]; simpl; [reflexivity|].
  now destruct (String.eqb k k').
Qed.

(** Sorting the keys changes no lookup. *)
Lemma dict_get_insert_sorted (k k' : string) (v : value) (d : dict) :
  dict_get k (insert_sorted (k', v) d) =
  if String.eqb k k' then Some v else dict_get k d.
Proof.
  induction d as [|[k0 v0] d IH]; simpl; [reflexivity|].
  destruct (String.leb k' k0) eqn:Hle; simpl.
  - reflexivity.
  - rewrite IH. destruct (String.eqb_spec k k0) as [->|]; [|reflexivity].
    destruct (String.eqb_spec k0 k') as [->|]; [|reflexivity].
    destruct (String.leb_total k' k'); congruence.
Qed.

Lemma dict_get_sort_keys (k : string) (d : dict) :
  dict_get k (sort_keys d) = dict_get k d.
Proof.
  induction d as [|[k' v'] d IH]; simpl; [reflexivity|].
  fold (sort_keys d). now rewrite dict_get_insert_sorted, IH.
Qed.

Lemma dict_keys_properties (fs : field_table) :
  dict_keys (map (fun nf => (fst nf, VDict (field_schema (fst nf) (snd nf)))) fs)
  = map fst fs.
Proof. unfold dict_keys. rewrite map_map. reflexivity. Qed.

Lemma dict_get_properties (fs : field_table) (name : string) (fi : field_info ftype) :
  List.NoDup (map fst fs) ->
  In (name, fi) fs ->
  dict_get name (map (fun nf => (fst nf, VDict (field_schema (fst nf) (snd nf)))) fs)
  = Some (VDict (field_schema name fi)).
Proof.
  induction fs as [|[n f] fs IH]; simpl; [tauto|].
  intros Hnd [[= -> ->]|Hin].
  - now rewrite String.eqb_refl.
  - apply NoDup_cons_iff in Hnd as [Hfresh Hnd].
    destruct (String.eqb_spec name n) as [->|]; [|now apply IH].
    exfalso. apply Hfresh. apply in_map_iff. now exists (n, fi).
Qed.

(** The keys an annotation contributes, each once. *)
Lemma type_schema_lookup (ge : option Z) (t : ftype) (k : string) (v : value) :
  In (k, v) (type_schema ge t) -> dict_get k (type_schema ge t) = Some v.
Proof.
  destruct t, ge; cbn; intros Hin;
    repeat (destruct Hin as [[= <- <-]|Hin]; [reflexivity|]); destruct Hin.
Qed.

Lemma type_schema_other (ge : option Z) (t : ftype) (k : string) :
  In k ["default"; "description"; "title"] -> dict_get k (type_schema ge t) = None.
Proof.
  intros Hin. destruct t, ge;
    repeat (destruct Hin as [<-|Hin]; [reflexivity|]); destruct Hin.
Qed.

Lemma object_schema_lookup (name : string) (fs : field_table) (k : string) :
  dict_get k (object_schema name fs) =
  dict_get k
    ([("properties", VDict (map (fun nf => (fst nf, VDict (field_schema (fst nf) (snd nf)))) fs))]
     ++ match required_names fs with
        | [] => []
        | names => [("required", VList (map VStr names))]
        end
     ++ [("title", VStr name); ("type", VStr "object")])%list.
Proof. unfold object_schema. apply dict_get_sort_keys. Qed.

Lemma model_json_schema_lookup (m : model) (k : string) :
  k <> "$defs" ->
  dict_get k (model_json_schema m) = dict_get k (object_schema (m_name m) (m_fields m)).
Proof.
  intros Hk. unfold model_json_schema. rewrite dict_get_sort_keys, dict_get_app.
  destruct (flat_map _ _); [reflexivity|]. simpl.
  now destruct (String.eqb_spec k "$defs").
Qed.

(** The fields an export lists as required are those declared so. *)
Lemma required_names_spec (fs : field_table) (n : string) :
  In n (required_names fs) <-> exists fi, In (n, fi) fs /\ f_default fi = Required.
Proof.
  unfold required_names. rewrite in_map_iff. split.
  - intros ([n' fi] & <- & Hin). apply filter_In in Hin as [Hin Hreq].
    exists fi. split; [exact Hin|]. unfold is_required in Hreq. cbn in Hreq.
    now destruct (f_default fi).
  - intros (fi & Hin & Hreq). exists (n, fi). split; [reflexivity|].
    apply filter_In. split; [exact Hin|]. unfold is_required. cbn. now rewrite Hreq.
Qed.

Lemma object_schema_required (name : string) (fs : field_table) :
  required_described fs (object_schema name fs).
Proof.
  unfold required_described. rewrite object_schema_lookup.
  replace (dict_get "required" _)
    with (match required_names fs with
          | [] => None
          | names => Some (VList (map VStr names))
          end)
    by (cbn; destruct (required_names fs); reflexivity).
  destruct (required_names fs) as [|r rs] eqn:E.
  - intros n fi Hin Hreq.
    assert (Hn : In n (required_names fs)) by (apply required_names_spec; eauto).
    rewrite E in Hn. destruct Hn.
  - intros n. rewrite <- E, <- required_names_spec, in_map_iff. split.
    + intros (n' & [= ->] & Hin). exact Hin.
    + intros Hin. now exists n.
Qed.

(** An entry states an annotation through six keywords only. *)
Lemma exported_ext (defs : dict) (t : ftype) (ge : option Z) (p p' : dict) :
  (forall k, In k ["type"; "enum"; "minimum"; "anyOf"; "items"; "$ref"] ->
             dict_get k p' = dict_get k p) ->
  exported defs t ge p -> exported defs t ge p'.
Proof.
  intros Hsame.
  assert (Htype := Hsame "type" ltac:(cbn; tauto)).
  assert (Henum := Hsame "enum" ltac:(cbn; tauto)).
  assert (Hmin := Hsame "minimum" ltac:(cbn; tauto)).
  assert (Hany := Hsame "anyOf" ltac:(cbn; tauto)).
  assert (Hitems := Hsame "items" ltac:(cbn; tauto)).
  assert (Href := Hsame "$ref" ltac:(cbn; tauto)).
  destruct t; cbn [exported]; rewrite ?Htype, ?Henum, ?Hmin, ?Hany, ?Hitems, ?Href;
    exact (fun H => H).
Qed.

Lemma field_schema_type_keys (name : string) (fi : field_info ftype) (k : string) :
  In k ["type"; "enum"; "minimum"; "anyOf"; "items"; "$ref"] ->
  dict_get k (field_schema name fi) = dict_get k (type_schema (f_ge fi) (f_type fi)).
Proof.
  intros Hin. unfold field_schema. rewrite dict_get_sort_keys, !dict_get_app.
  destruct (dict_get k (type_schema (f_ge fi) (f_type fi))); [reflexivity|].
  repeat (destruct Hin as [<-|Hin];
          [destruct (f_default fi), (f_description fi); reflexivity|]).
  destruct Hin.
Qed.

Lemma field_schema_described (defs : dict) (name : string) (fi : field_info ftype) :
  exported defs (f_type fi) (f_ge fi) (type_schema (f_ge fi) (f_type fi)) ->
  field_described (exported defs) fi (field_schema name fi).
Proof.
  intros Hty.
  assert (Hother : forall k, In k ["default"; "description"; "title"] ->
                     dict_get k (type_schema (f_ge fi) (f_type fi)) = None)
    by (intros k; apply type_schema_other).
  unfold field_described. split; [|split].
  - unfold field_schema. rewrite dict_get_sort_keys, !dict_get_app.
    rewrite Hother by (simpl; tauto).
    destruct (f_default fi), (f_description fi); reflexivity.
  - unfold field_schema. rewrite dict_get_sort_keys, !dict_get_app.
    rewrite Hother by (simpl; tauto).
    destruct (f_default fi), (f_description fi); reflexivity.
  - eapply exported_ext; [|exact Hty]. intros k Hk. now apply field_schema_type_keys.
Qed.

Lemma fields_described_properties (defs : dict) (fs fs' : field_table) :
  List.NoDup (map fst fs) ->
  (forall nf, In nf fs' -> In nf fs) ->
  List.Forall (fun nf => exported defs (f_type (snd nf)) (f_ge (snd nf))
                           (type_schema (f_ge (snd nf)) (f_type (snd nf)))) fs' ->
  fields_described (exported defs) fs'
    (map (fun nf => (fst nf, VDict (field_schema (fst nf) (snd nf)))) fs).
Proof.
  intros Hnd. induction fs' as [|[n fi] fs' IH]; intros Hsub Hall; cbn [fields_described];
    [exact I|].
  apply List.Forall_cons_iff in Hall as [Hfi Hall]. split.
  - exists (field_schema n fi). split.
    + apply (dict_get_properties fs n fi Hnd). apply Hsub. now left.
    + now apply field_schema_described.
  - apply IH; [|exact Hall]. intros nf Hin. apply Hsub. now right.
Qed.

Lemma object_schema_described (defs : dict) (name : string) (fs : field_table) :
  List.NoDup (map fst fs) ->
  List.Forall (fun nf => exported defs (f_type (snd nf)) (f_ge (snd nf))
                           (type_schema (f_ge (snd nf)) (f_type (snd nf)))) fs ->
  object_described (exported defs) name fs (object_schema name fs).
Proof.
  intros Hnd Hall. unfold object_described.
  split; [|split; [|split]].
  - rewrite object_schema_lookup. cbn. destruct (required_names fs); reflexivity.
  - rewrite object_schema_lookup. cbn. destruct (required_names fs); reflexivity.
  - apply object_schema_required.
  - eexists. split; [|split].
    + rewrite object_schema_lookup. reflexivity.
    + apply dict_keys_properties.
    + apply fields_described_properties; auto.
Qed.

Lemma defs_cover_fields (defs : dict) (name : string) (fs : field_table) :
  defs_cover defs (TModel name fs) ->
  dict_get name defs = Some (VDict (object_schema name fs))
  /\ List.NoDup (map fst fs)
  /\ List.Forall (fun nf => defs_cover defs (f_type (snd nf))) fs.
Proof.
  cbn [defs_cover]. intros (Hget & Hnd & Hgo).
  split; [exact Hget|]. split; [exact Hnd|]. clear Hget Hnd.
  induction fs as [|nf fs IH]; [constructor|].
  destruct Hgo as [Hnf Hgo]. constructor; [exact Hnf|exact (IH Hgo)].
Qed.

(** The schema generated for an annotation states that annotation. *)
Lemma type_schema_exported (defs : dict) (t : ftype) :
  forall ge, defs_cover defs t -> exported defs t ge (type_schema ge t).
Proof.
  induction t as [| | | |opts|t IH|t IH|name fields IH] using ftype_nested_ind;
    intros ge Hcover; cbn [exported type_schema].
  - split; reflexivity.
  - destruct ge; split; reflexivity.
  - destruct ge; split; reflexivity.
  - reflexivity.
  - split; reflexivity.
  - eexists. split; [reflexivity|]. now apply IH.
  - split; [reflexivity|]. eexists. split; [reflexivity|]. now apply IH.
  - apply defs_cover_fields in Hcover as (Hget & Hnd & Hall).
    split; [reflexivity|]. eexists. split; [exact Hget|].
    apply object_schema_described; [exact Hnd|].
    rewrite List.Forall_forall in IH, Hall |- *.
    intros nf Hin. apply IH; auto.
Qed.

Lemma object_described_ext (X : ftype -> option Z -> dict -> Prop) (name : string)
    (fs : field_table) (s s' : dict) :
  (forall k, In k ["title"; "type"; "required"; "properties"] ->
             dict_get k s' = dict_get k s) ->
  object_described X name fs s -> object_described X name fs s'.
Proof.
  intros Hsame. unfold object_described, required_described.
  rewrite (Hsame "title"), (Hsame "type"), (Hsame "required"), (Hsame "properties")
    by (cbn; tauto).
  exact (fun H => H).
Qed.

(** The exported schema of a model describes its record definition. *)
Lemma model_json_schema_describes (m : model) :
  List.NoDup (map fst (m_fields m)) ->
  List.Forall (fun nf => defs_cover (schema_defs (model_json_schema m)) (f_type (snd nf)))
              (m_fields m) ->
  describes m (model_json_schema m).
Proof.
  intros Hnd Hcover. unfold describes.
  apply (object_described_ext _ _ _ (object_schema (m_name m) (m_fields m))).
  - intros k Hk. apply model_json_schema_lookup.
    cbn in Hk. intuition (subst; discriminate).
  - apply object_schema_described; [exact Hnd|].
    rewrite List.Forall_forall in Hcover |- *.
    intros nf Hin. apply type_schema_exported. now apply Hcover.
Qed.

Lemma ALL_MODELS_fields_distinct :
  Forall (fun nm => List.NoDup (map fst (m_fields (snd nm)))) ALL_MODELS.
Proof.
  repeat constructor; simpl; intuition discriminate.
Qed.

Lemma ALL_MODELS_defs_cover :
  Forall (fun nm =>
            List.Forall (fun nf => defs_cover (schema_defs (model_json_schema (snd nm)))
                                              (f_type (snd nf)))
                        (m_fields (snd nm))) ALL_MODELS.
Proof.
  repeat (apply List.Forall_cons; [repeat (apply List.Forall_cons; [cbn; auto|]);
                                   try apply List.Forall_nil|]);
    try apply List.Forall_nil.
  cbn. split; [reflexivity|]. split; [|cbn; tauto].
  repeat constructor; cbn; intuition discriminate.
Qed.

(** C8. The schema export is one fixed mapping: in every state [get_schema]
    returns it without failing and leaves the state as it was. Its keys are
    the names of the ten record definitions, and under each name sits the
    schema generated from that definition, which describes it in the
    keywords of JSON Schema: the name of the definition, its field names in
    declaration order and which of them are required, and for each field
    its description, its default and its declared type ([type] string,
    integer, number, boolean or array, [enum] with the literals, [minimum]
    with the bound, [anyOf] with null for an optional field, [items] for a
    list, and a reference to the described schema of a nested model). *)
Theorem schema_export :
  exists schema : dict,
    (forall w : world, get_schema w = (Ok schema, w))
    /\ dict_keys schema =
       ["Bot"; "Fan"; "MediaItem"; "ScriptStep"; "Script"; "Conversation";
        "Message"; "Team"; "TeamMember"; "AnalyticsDaily"]
    /\ map fst ALL_MODELS = dict_keys schema
    /\ forall name m, In (name, m) ALL_MODELS ->
         dict_get name schema = Some (VDict (model_json_schema m))
         /\ describes m (model_json_schema m).
Proof.
  eexists. split; [reflexivity|]. split; [reflexivity|]. split; [reflexivity|].
  intros name m Hin. split.
  - cbn in Hin.
    repeat (destruct Hin as [[= <- <-]|Hin]; [reflexivity|]). destruct Hin.
  - pose proof ALL_MODELS_fields_distinct as Hnd.
    pose proof ALL_MODELS_defs_cover as Hcover.
    rewrite List.Forall_forall in Hnd, Hcover.
    apply model_json_schema_describes;
      [apply (Hnd (name, m) Hin)|apply (Hcover (name, m) Hin)].
Qed.

(** The export for the smallest definition, in full. *)
Example model_json_schema_Team :
  model_json_schema Team =
  [("properties",
    VDict [("name", VDict [("description", VStr "Team name");
                           ("title", VStr "Name");
                           ("type", VStr "string")])]);
   ("required", VList [VStr "name"]);
   ("title", VStr "Team");
   ("type", VStr "object")].
Proof. reflexivity. Qed.

(** What the description says of two fields of the export: [type] of
    MediaItem is a string with the three literals, and [price] is an
    optional number with minimum 0 and default None. *)
Lemma schema_export_witness :
  exists schema props ptype pprice inner,
    get_schema None = (Ok schema, None)
    /\ dict_get "MediaItem" schema = Some (VDict (model_json_schema MediaItem))
    /\ dict_get "properties" (model_json_schema MediaItem) = Some (VDict props)
    /\ dict_get "type" props = Some (VDict ptype)
    /\ dict_get "type" ptype = Some (VStr "string")
    /\ dict_get "enum" ptype = Some (VList [VStr "photo"; VStr "video"; VStr "document"])
    /\ dict_get "price" props = Some (VDict pprice)
    /\ dict_get "default" pprice = Some VNone
    /\ dict_get "anyOf" pprice = Some (VList [VDict inner; VDict [("type", VStr "null")]])
    /\ dict_get "type" inner = Some (VStr "number")
    /\ dict_get "minimum" inner = Some (VInt 0).
Proof.
  destruct schema_export as (schema & Hrun & _ & _ & Hall).
  destruct (Hall "MediaItem" MediaItem ltac:(cbn; tauto))
    as (Hget & _ & _ & _ & props & Hprops & _ & Hfields).
  cbn [m_fields MediaItem fields_described] in Hfields.
  destruct Hfields as (_ & (ptype & Htype & _ & _ & Hty & Henum)
                         & _ & (pprice & Hprice & _ & Hdef & inner & Hany & Hnum & Hmin) & _).
  exists schema, props, ptype, pprice, inner.
  repeat split; auto.
Defined.

(* ===================================================================== *)
(** * Further properties of the record definitions *)
(* ===================================================================== *)

Section InstanceFacts.
Context `{PyRuntime}.

Lemma float_eqb_refl (f : spec_float) : float_eqb f f = true.
Proof.
  destruct f as [s|s| |s m e]; simpl; try reflexivity;
    rewrite ?Bool.eqb_reflx, ?Pos.eqb_refl, ?Z.eqb_refl; reflexivity.
Qed.

Lemma value_eqb_refl (v : value) : value_eqb v v = true.
Proof.
  induction v as [|b|z|f|s|l IH|d IH|o] using value_nested_ind; cbn [value_eqb].
  - reflexivity.
  - apply Bool.eqb_reflx.
  - apply Z.eqb_refl.
  - apply float_eqb_refl.
  - apply String.eqb_refl.
  - induction IH as [|x xs Hx _ IHxs]; [reflexivity|]. now rewrite Hx, IHxs.
  - induction IH as [|[k x] xs Hx _ IHxs]; [reflexivity|].
    cbn in Hx. now rewrite String.eqb_refl, Hx, IHxs.
  - apply N.eqb_refl.
Qed.

Lemma check_ge_ok_inv (bound : option Z) (v v' : value) :
  check_ge bound v = Ok v' -> v' = v /\ within_bound bound v = true.
Proof.
  unfold check_ge, within_bound. destruct bound as [b|]; [|intros [= <-]; auto].
  destruct v; try (intros [= <-]; auto).
  - destruct (b <=? z); [intros [= <-]; auto|discriminate].
  - destruct (SFleb (float_of_Z b) f); [intros [= <-]; auto|discriminate].
Qed.

Lemma validate_items_conform (co : value -> vresult value) (p : value -> bool) :
  (forall x x', co x = Ok x' -> p x' = true) ->
  forall l i l', validate_items co i l = Ok l' -> forallb p l' = true.
Proof.
  intros Hco. induction l as [|x l IH]; intros i l'; cbn [validate_items].
  - intros [= <-]. reflexivity.
  - intros Hv. apply both_ok_inv in Hv as (x' & r & Hx & Hr & ->).
    apply at_loc_ok_inv, Hco in Hx. cbn. rewrite Hx. eauto.
Qed.

Lemma validate_fields_conform (fs : field_table) (kwargs inst : dict) :
  List.Forall (fun nf => forall v v', coerce (f_type (snd nf)) v = Ok v' ->
                                      conforms (f_type (snd nf)) v' = true) fs ->
  validate_fields coerce fs kwargs = Ok inst ->
  instance_of fs inst = true.
Proof.
  intros Hall. revert inst. induction Hall as [|[n fi] fs Hfi _ IH]; intros inst;
    cbn [validate_fields].
  - intros [= <-]. reflexivity.
  - intros Hv. apply both_ok_inv in Hv as (x & r & Hx & Hr & ->).
    cbn [instance_of]. rewrite String.eqb_refl, (IH _ Hr), andb_true_r. cbn.
    unfold field_holds.
    apply validate_field_ok_inv in Hx
      as [(v & v' & _ & Hco & Hge)|(_ & [Hd|[Hd ->]])].
    + apply check_ge_ok_inv in Hge as [-> Hb]. cbn in Hfi.
      now rewrite (Hfi _ _ Hco), Hb.
    + rewrite Hd. cbn. rewrite value_eqb_refl. apply orb_true_r.
    + rewrite Hd. cbn. apply orb_true_r.
Qed.

Lemma conforms_model (name : string) (fs : field_table) (d : dict) :
  conforms (TModel name fs) (VDict d) = instance_of fs d.
Proof.
  revert d. induction fs as [|[n fi] fs IH]; intros [|[k x] d]; reflexivity.
Qed.

(** A validated value has the shape of its annotation. *)
Lemma coerce_conforms (t : ftype) :
  forall v v', coerce t v = Ok v' -> conforms t v' = true.
Proof.
  induction t as [| | | |opts|t IH|t IH|name fields IH] using ftype_nested_ind;
    intros v v'; cbn [coerce].
  - intros Hv. now apply coerce_str_shape in Hv as [s ->].
  - destruct v; cbn; try discriminate; try (intros [= <-]; reflexivity).
    + destruct (float_as_int f); intros [= <-]; reflexivity.
    + destruct (str_to_int s); intros [= <-]; reflexivity.
  - intros Hv. now apply coerce_float_shape in Hv as [f ->].
  - intros Hv. now apply coerce_bool_shape in Hv as [b ->].
  - destruct v; cbn; try discriminate.
    destruct (existsb (String.eqb s) opts) eqn:E; intros [= <-]. exact E.
  - destruct v; try (intros Hv; apply IH in Hv; cbn [conforms]; now destruct v').
    intros [= <-]. reflexivity.
  - destruct v; try discriminate.
    destruct (validate_items (coerce t) 0 l) as [l'|] eqn:E; intros [= <-].
    cbn [conforms]. eapply validate_items_conform; eauto.
  - destruct v; try discriminate.
    destruct (validate_fields coerce fields d) as [d'|] eqn:E; intros [= <-].
    rewrite conforms_model. eapply validate_fields_conform; eauto.
Qed.

Lemma instance_of_keys (fs : field_table) (d : dict) :
  instance_of fs d = true -> dict_keys d = map fst fs.
Proof.
  revert d. induction fs as [|[n fi] fs IH]; intros [|[k x] d]; cbn; try discriminate.
  - reflexivity.
  - intros Hi. apply andb_prop in Hi as [Hi Hrest]. apply andb_prop in Hi as [Hk _].
    apply String.eqb_eq in Hk as ->. f_equal. now apply IH.
Qed.

Lemma instance_of_lookup (fs : field_table) (d : dict) (n : string)
    (fi : field_info ftype) :
  instance_of fs d = true ->
  List.NoDup (map fst fs) ->
  In (n, fi) fs ->
  exists x, dict_get n d = Some x /\ field_holds fi x = true.
Proof.
  revert d. induction fs as [|[n0 f0] fs IH]; intros [|[k x] d]; cbn; try discriminate;
    try tauto.
  intros Hi Hnd Hin.
  apply andb_prop in Hi as [Hi Hrest]. apply andb_prop in Hi as [Hk Hx].
  apply String.eqb_eq in Hk as ->. apply NoDup_cons_iff in Hnd as [Hfresh Hnd].
  destruct Hin as [[= -> ->]|Hin].
  - rewrite String.eqb_refl. eauto.
  - destruct (String.eqb_spec n n0) as [->|]; [|now apply IH].
    exfalso. apply Hfresh. apply in_map_iff. now exists (n0, fi).
Qed.

Lemma construct_instance_of (m : model) (kwargs inst : dict) :
  construct m kwargs = Ok inst -> instance_of (m_fields m) inst = true.
Proof.
  intros Hc. apply construct_ok_inv in Hc.
  eapply validate_fields_conform; [|exact Hc].
  apply List.Forall_forall. intros nf _. apply coerce_conforms.
Qed.

End InstanceFacts.

(** X1. Whatever the model and the keyword arguments, a construction that
    succeeds yields an instance with exactly the declared fields, in
    declaration order, each holding a value of its declared type within its
    bound, or the declared default. *)
Theorem construct_conforms `{PyRuntime} (m : model) (kwargs inst : dict) :
  construct m kwargs = Ok inst ->
  dict_keys inst = map fst (m_fields m) /\ instance_of (m_fields m) inst = true.
Proof.
  intros Hc. apply construct_instance_of in Hc.
  split; [now apply instance_of_keys|exact Hc].
Qed.

Lemma construct_conforms_witness :
  dict_keys
    [("media_item_id", VNone); ("caption", VStr "hello"); ("price", VNone);
     ("delay_minutes", VInt 5)]
  = map fst (m_fields ScriptStep)
  /\ instance_of (m_fields ScriptStep)
       [("media_item_id", VNone); ("caption", VStr "hello"); ("price", VNone);
        ("delay_minutes", VInt 5)] = true.
Proof.
  apply (@construct_conforms no_parsing ScriptStep
           [("delay_minutes", VFloat (float_of_Z 5)); ("caption", VStr "hello")]).
  vm_compute. reflexivity.
Defined.

Section FieldFacts.
Context `{PyRuntime}.

Lemma value_eqb_VNone (x : value) : value_eqb VNone x = true -> x = VNone.
Proof. destruct x; cbn; congruence. Qed.

Lemma value_eqb_VInt (z : Z) (x : value) : value_eqb (VInt z) x = true -> x = VInt z.
Proof. destruct x; cbn; try congruence. intros E. apply Z.eqb_eq in E. congruence. Qed.

Lemma value_eqb_VStr (s : string) (x : value) : value_eqb (VStr s) x = true -> x = VStr s.
Proof. destruct x; cbn; try congruence. intros E. apply String.eqb_eq in E. congruence. Qed.

Lemma value_eqb_empty_list (x : value) : value_eqb (VList []) x = true -> x = VList [].
Proof. destruct x as [| | | | |[|y l]| |]; cbn; congruence. Qed.

Lemma existsb_eqb_In (s : string) (opts : list string) :
  existsb (String.eqb s) opts = true -> In s opts.
Proof.
  intros E. apply existsb_exists in E as (s' & Hin & Heq).
  apply String.eqb_eq in Heq. now subst.
Qed.

Lemma forallb_str (l : list value) :
  forallb (conforms TStr) l = true -> exists ss, l = map VStr ss.
Proof.
  induction l as [|x l IH]; cbn.
  - now exists [].
  - intros Hl. apply andb_prop in Hl as [Hx Hl]. destruct (IH Hl) as [ss ->].
    destruct x; try discriminate. now exists (s :: ss).
Qed.

End FieldFacts.

(** X2. Every MediaItem that construction yields has a [type] among photo,
    video and document, a [price] that is either None or a float not below
    zero (so never NaN), and a list of strings as [tags]. *)
Theorem MediaItem_instance_invariant `{PyRuntime} (kwargs inst : dict) :
  construct MediaItem kwargs = Ok inst ->
  (exists t, dict_get "type" inst = Some (VStr t) /\ In t media_types)
  /\ (dict_get "price" inst = Some VNone
      \/ exists f, dict_get "price" inst = Some (VFloat f)
                   /\ SFleb (S754_zero false) f = true)
  /\ (exists tags, dict_get "tags" inst = Some (VList (map VStr tags))).
Proof.
  intros Hc. apply construct_instance_of in Hc as Hi.
  assert (Hnd : List.NoDup (map fst (m_fields MediaItem)))
    by (repeat constructor; cbn; intuition discriminate).
  split; [|split].
  - destruct (instance_of_lookup _ _ "type" _ Hi Hnd
                ltac:(right; left; reflexivity)) as (x & -> & Hx).
    unfold field_holds in Hx. cbn in Hx. rewrite orb_false_r, andb_true_r in Hx.
    destruct x; try discriminate. exists s. split; [reflexivity|].
    now apply existsb_eqb_In.
  - destruct (instance_of_lookup _ _ "price" _ Hi Hnd
                ltac:(do 3 right; left; reflexivity)) as (x & -> & Hx).
    unfold field_holds in Hx. cbn [f_type f_ge f_default is_default] in Hx.
    apply orb_prop in Hx as [Hx|Hx].
    + apply andb_prop in Hx as [Hty Hb].
      destruct x; try discriminate; [now left|]. right. exists f. split; [reflexivity|].
      exact Hb.
    + apply value_eqb_VNone in Hx as ->. now left.
  - destruct (instance_of_lookup _ _ "tags" _ Hi Hnd
                ltac:(do 6 right; left; reflexivity)) as (x & -> & Hx).
    unfold field_holds in Hx. cbn [f_type f_ge f_default is_default] in Hx.
    apply orb_prop in Hx as [Hx|Hx].
    + apply andb_prop in Hx as [Hty _]. destruct x; try discriminate.
      cbn [conforms] in Hty. apply forallb_str in Hty as [ss ->]. now exists ss.
    + apply value_eqb_empty_list in Hx as ->. now exists [].
Qed.

Lemma MediaItem_instance_invariant_witness :
  (exists t, dict_get "type"
               [("bot_id", VStr "bot1"); ("type", VStr "video"); ("caption", VNone);
                ("price", VFloat (float_of_Z 5)); ("external_url", VNone);
                ("telegram_file_id", VNone); ("tags", VList [VStr "new"]);
                ("thumbnail_url", VNone)] = Some (VStr t) /\ In t media_types)
  /\ (dict_get "price"
        [("bot_id", VStr "bot1"); ("type", VStr "video"); ("caption", VNone);
         ("price", VFloat (float_of_Z 5)); ("external_url", VNone);
         ("telegram_file_id", VNone); ("tags", VList [VStr "new"]);
         ("thumbnail_url", VNone)] = Some VNone
      \/ exists f, dict_get "price"
                     [("bot_id", VStr "bot1"); ("type", VStr "video"); ("caption", VNone);
                      ("price", VFloat (float_of_Z 5)); ("external_url", VNone);
                      ("telegram_file_id", VNone); ("tags", VList [VStr "new"]);
                      ("thumbnail_url", VNone)] = Some (VFloat f)
                   /\ SFleb (S754_zero false) f = true)
  /\ (exists tags, dict_get "tags"
                     [("bot_id", VStr "bot1"); ("type", VStr "video"); ("caption", VNone);
                      ("price", VFloat (float_of_Z 5)); ("external_url", VNone);
                      ("telegram_file_id", VNone); ("tags", VList [VStr "new"]);
                      ("thumbnail_url", VNone)] = Some (VList (map VStr tags))).
Proof.
  apply (@MediaItem_instance_invariant no_parsing
           [("bot_id", VStr "bot1"); ("type", VStr "video"); ("price", VInt 5);
            ("tags", VList [VStr "new"])]).
  vm_compute. reflexivity.
Defined.

(** X3. Every Script that construction yields holds a list of ScriptStep
    instances as [steps], and each of them has an integer [delay_minutes]
    that is not negative. *)
Theorem Script_steps_invariant `{PyRuntime} (kwargs inst : dict) :
  construct Script kwargs = Ok inst ->
  exists steps,
    dict_get "steps" inst = Some (VList (map VDict steps))
    /\ Forall (fun step =>
                 dict_keys step = map fst (m_fields ScriptStep)
                 /\ exists z, dict_get "delay_minutes" step = Some (VInt z) /\ 0 <= z)
              steps.
Proof.
  intros Hc. apply construct_instance_of in Hc as Hi.
  assert (Hnd : List.NoDup (map fst (m_fields Script)))
    by (repeat constructor; cbn; intuition discriminate).
  destruct (instance_of_lookup _ _ "steps" _ Hi Hnd
              ltac:(do 2 right; left; reflexivity)) as (x & -> & Hx).
  unfold field_holds in Hx. cbn [f_type f_ge f_default is_default] in Hx.
  apply orb_prop in Hx as [Hx|Hx];
    [|apply value_eqb_empty_list in Hx as ->; exists []; split; [reflexivity|constructor]].
  apply andb_prop in Hx as [Hty _]. destruct x; try discriminate.
  cbn [conforms] in Hty. fold (conforms (model_type ScriptStep)) in Hty.
  induction l as [|x l IH].
  - exists []. split; [reflexivity|constructor].
  - cbn [forallb] in Hty. apply andb_prop in Hty as [Hx Hl].
    destruct (IH Hl) as (steps & Hsteps & Hall).
    destruct x; try discriminate.
    unfold model_type in Hx. rewrite conforms_model in Hx.
    exists (d :: steps). split.
    + cbn in Hsteps |- *. injection Hsteps as ->. reflexivity.
    + constructor; [|exact Hall]. split; [now apply instance_of_keys|].
      assert (Hnd' : List.NoDup (map fst (m_fields ScriptStep)))
        by (repeat constructor; cbn; intuition discriminate).
      destruct (instance_of_lookup _ _ "delay_minutes" _ Hx Hnd'
                  ltac:(do 3 right; left; reflexivity)) as (y & -> & Hy).
      unfold field_holds in Hy. cbn [f_type f_ge f_default is_default] in Hy.
      apply orb_prop in Hy as [Hy|Hy].
      * apply andb_prop in Hy as [Hty' Hb]. destruct y; try discriminate.
        exists z. split; [reflexivity|]. cbn in Hb. lia.
      * apply value_eqb_VInt in Hy as ->. exists 0. split; [reflexivity|lia].
Qed.

Lemma Script_steps_invariant_witness :
  exists steps,
    dict_get "steps"
      [("bot_id", VStr "bot1"); ("name", VStr "welcome");
       ("steps", VList [VDict [("media_item_id", VNone); ("caption", VStr "hi");
                               ("price", VNone); ("delay_minutes", VInt 10)]])]
    = Some (VList (map VDict steps))
    /\ Forall (fun step =>
                 dict_keys step = map fst (m_fields ScriptStep)
                 /\ exists z, dict_get "delay_minutes" step = Some (VInt z) /\ 0 <= z)
              steps.
Proof.
  apply (@Script_steps_invariant no_parsing
           [("bot_id", VStr "bot1"); ("name", VStr "welcome");
            ("steps", VList [VDict [("caption", VStr "hi"); ("delay_minutes", VInt 10)]])]).
  vm_compute. reflexivity.
Defined.

(** X4. In every record definition, a field declared as a [Literal] rejects
    any supplied value that is not one of its literals: construction fails
    with ValidationError and a literal error located at that field. *)
Theorem literal_field_rejects `{PyRuntime} (m : model) (name : string)
    (fi : field_info ftype) (opts : list string) (kwargs : dict) (v : value) :
  In (name, fi) (m_fields m) ->
  f_type fi = TLiteral opts ->
  dict_get name kwargs = Some v ->
  (forall s, In s opts -> v <> VStr s) ->
  exists es, construct m kwargs = Err (ValidationError es)
             /\ In ([LKey name], literal_error) es.
Proof.
  intros Hin Hty Hv Hout.
  eapply (construct_error m kwargs name fi).
  - exact Hin.
  - unfold validate_field. rewrite Hv, Hty. cbn [coerce].
    rewrite (coerce_literal_outside opts v Hout). reflexivity.
  - now left.
Qed.

Lemma literal_field_rejects_witness :
  exists es, @construct no_parsing TeamMember
               [("team_id", VStr "t1"); ("user_id", VStr "u1"); ("role", VStr "superuser")]
             = Err (ValidationError es)
             /\ In ([LKey "role"], literal_error) es.
Proof.
  apply (@literal_field_rejects no_parsing TeamMember "role"
           (Field (TLiteral ["owner"; "admin"; "agent"; "viewer"])
                  (Default (VStr "agent")) None None)
           ["owner"; "admin"; "agent"; "viewer"] _ (VStr "superuser")).
  - do 2 right. left. reflexivity.
  - reflexivity.
  - reflexivity.
  - intros s [<-|[<-|[<-|[<-|[]]]]]; discriminate.
Defined.

(** X5. In every record definition, an integer field with a [ge] bound
    rejects any supplied integer below the bound: construction fails with
    ValidationError and a bound error located at that field. *)
Theorem bounded_int_field_rejects `{PyRuntime} (m : model) (name : string)
    (fi : field_info ftype) (bound z : Z) (kwargs : dict) :
  In (name, fi) (m_fields m) ->
  f_type fi = TInt ->
  f_ge fi = Some bound ->
  dict_get name kwargs = Some (VInt z) ->
  z < bound ->
  exists es, construct m kwargs = Err (ValidationError es)
             /\ In ([LKey name], greater_than_equal) es.
Proof.
  intros Hin Hty Hge Hv Hlt.
  eapply (construct_error m kwargs name fi).
  - exact Hin.
  - unfold validate_field. rewrite Hv, Hty, Hge. cbn [coerce coerce_int check_ge].
    replace (bound <=? z) with false by (symmetry; apply Z.leb_gt; exact Hlt).
    reflexivity.
  - now left.
Qed.

Lemma bounded_int_field_rejects_witness :
  exists es, @construct no_parsing ScriptStep [("delay_minutes", VInt (-3))]
             = Err (ValidationError es)
             /\ In ([LKey "delay_minutes"], greater_than_equal) es.
Proof.
  apply (@bounded_int_field_rejects no_parsing ScriptStep "delay_minutes"
           (Field TInt (Default (VInt 0)) (Some 0)
                  (Some "Delay before sending this step in minutes")) 0 (-3)).
  - do 3 right. left. reflexivity.
  - reflexivity.
  - reflexivity.
  - reflexivity.
  - reflexivity.
Defined.

Section NestedFacts.
Context `{PyRuntime}.

Lemma validate_items_error (co : value -> vresult value) (l : list value) :
  forall (k i : nat) (x : value) (es0 : list error_detail) (loc : list loc_item)
         (t : error_type),
    nth_error l i = Some x ->
    co x = Err es0 ->
    In (loc, t) es0 ->
    exists es, validate_items co k l = Err es /\ In (LIdx (k + i) :: loc, t) es.
Proof.
  induction l as [|y l IH]; intros k i x es0 loc t Hnth Hco Hin.
  - destruct i; discriminate.
  - cbn [validate_items]. destruct i as [|i]; cbn in Hnth.
    + injection Hnth as ->. rewrite Hco. rewrite Nat.add_0_r. cbn [at_loc].
      assert (Hin' : In (LIdx k :: loc, t)
                        (map (fun e => (LIdx k :: fst e, snd e)) es0))
        by (apply in_map_iff; now exists (loc, t)).
      destruct (validate_items co (S k) l); cbn; eexists; split; eauto.
      apply in_or_app. now left.
    + destruct (IH (S k) i x es0 loc t Hnth Hco Hin) as (es & -> & Hes).
      replace (k + S i)%nat with (S k + i)%nat by lia.
      destruct (at_loc (LIdx k) (co y)); cbn; eexists; split; eauto.
      apply in_or_app. now right.
Qed.

End NestedFacts.

(** X6. A Script whose [steps] holds, at some index, a step that ScriptStep
    rejects is rejected too, and each error of the step is reported under
    [steps], the index of the step, and the step's own location. *)
Theorem Script_step_error_located `{PyRuntime} (kwargs : dict) (steps : list value)
    (i : nat) (step : dict) (es0 : list error_detail) (loc : list loc_item)
    (t : error_type) :
  dict_get "steps" kwargs = Some (VList steps) ->
  nth_error steps i = Some (VDict step) ->
  construct ScriptStep step = Err (ValidationError es0) ->
  In (loc, t) es0 ->
  exists es, construct Script kwargs = Err (ValidationError es)
             /\ In (LKey "steps" :: LIdx i :: loc, t) es.
Proof.
  intros Hsteps Hnth Hstep Hin.
  assert (Hco : coerce (model_type ScriptStep) (VDict step) = Err es0).
  { unfold construct in Hstep. cbn [model_type coerce].
    destruct (validate_fields coerce (m_fields ScriptStep) step); congruence. }
  destruct (validate_items_error _ steps 0 i _ _ _ _ Hnth Hco Hin) as (es1 & Hes1 & Hin1).
  eapply (construct_error Script kwargs "steps").
  - do 2 right. left. reflexivity.
  - unfold validate_field. rewrite Hsteps. cbn [f_type coerce].
    fold (coerce (model_type ScriptStep)). rewrite Hes1. reflexivity.
  - apply in_map_iff. exists (LIdx (0 + i) :: loc, t). split; [reflexivity|exact Hin1].
Qed.

Lemma Script_step_error_located_witness :
  exists es, @construct no_parsing Script
               [("bot_id", VStr "bot1"); ("name", VStr "welcome");
                ("steps", VList [VDict []; VDict [("delay_minutes", VInt (-3))]])]
             = Err (ValidationError es)
             /\ In ([LKey "steps"; LIdx 1; LKey "delay_minutes"], greater_than_equal) es.
Proof.
  apply (@Script_step_error_located no_parsing _
           [VDict []; VDict [("delay_minutes", VInt (-3))]] 1
           [("delay_minutes", VInt (-3))]
           [([LKey "delay_minutes"], greater_than_equal)]).
  - reflexivity.
  - reflexivity.
  - reflexivity.
  - now left.
Defined.

Section ExtraKeys.
Context `{PyRuntime}.

Lemma validate_fields_agree {T} (co : T -> value -> vresult value)
    (fs : list (string * field_info T)) (kw1 kw2 : dict) :
  (forall n, In n (map fst fs) -> dict_get n kw1 = dict_get n kw2) ->
  validate_fields co fs kw1 = validate_fields co fs kw2.
Proof.
  induction fs as [|[n fi] fs IH]; intros Hagree; cbn [validate_fields]; [reflexivity|].
  rewrite IH by (intros n' Hn'; apply Hagree; now right).
  unfold validate_field. rewrite (Hagree n) by now left. reflexivity.
Qed.

End ExtraKeys.

(** X7. Construction looks only at the keyword arguments that name a
    declared field: two mappings that agree on those give the same result,
    so an argument under any other name is ignored, never rejected. *)
Theorem construct_ignores_undeclared `{PyRuntime} (m : model) (kw1 kw2 : dict) :
  (forall n, In n (map fst (m_fields m)) -> dict_get n kw1 = dict_get n kw2) ->
  construct m kw1 = construct m kw2.
Proof.
  intros Hagree. unfold construct.
  now rewrite (validate_fields_agree coerce (m_fields m) kw1 kw2 Hagree).
Qed.

Lemma construct_ignores_undeclared_witness :
  @construct no_parsing Team [("name", VStr "ops"); ("owner", VStr "ann")]
  = @construct no_parsing Team [("name", VStr "ops")].
Proof.
  apply (@construct_ignores_undeclared no_parsing Team).
  intros n [<-|[]]. reflexivity.
Defined.

(* ===================================================================== *)
(** * Further properties of the handlers *)
(* ===================================================================== *)

Section MoreRequests.
Context `{PyRuntime}.

(** An accepted media-creation request. *)
Lemma CreateMediaRequest_shape (body payload : dict) :
  construct CreateMediaRequest body = Ok payload ->
  exists (b t : string) (c : option string) (p : option spec_float) (u : option string),
    payload = [("bot_id", VStr b);
               ("type", VStr t);
               ("caption", optional_value VStr c);
               ("price", optional_value VFloat p);
               ("external_url", optional_value VStr u)].
Proof.
  intros Hc. apply construct_ok_inv in Hc.
  cbn [m_fields CreateMediaRequest validate_fields] in Hc.
  apply both_ok_inv in Hc as (v1 & r1 & H1 & Hc & ->).
  apply both_ok_inv in Hc as (v2 & r2 & H2 & Hc & ->).
  apply both_ok_inv in Hc as (v3 & r3 & H3 & Hc & ->).
  apply both_ok_inv in Hc as (v4 & r4 & H4 & Hc & ->).
  apply both_ok_inv in Hc as (v5 & r5 & H5 & Hc & ->).
  injection Hc as <-.
  apply plain_str_shape in H1 as [b ->].
  apply plain_str_shape in H2 as [t ->].
  apply plain_optional_str_shape in H3 as [c ->].
  apply plain_optional_float_shape in H4 as [p ->].
  apply plain_optional_str_shape in H5 as [u ->].
  now exists b, t, c, p, u.
Qed.

(** An accepted conversation-creation request. *)
Lemma CreateConversationRequest_shape (body payload : dict) :
  construct CreateConversationRequest body = Ok payload ->
  exists (b f : string) (l : option string),
    payload = [("bot_id", VStr b);
               ("fan_id", VStr f);
               ("last_message_preview", optional_value VStr l)].
Proof.
  intros Hc. apply construct_ok_inv in Hc.
  cbn [m_fields CreateConversationRequest validate_fields] in Hc.
  apply both_ok_inv in Hc as (v1 & r1 & H1 & Hc & ->).
  apply both_ok_inv in Hc as (v2 & r2 & H2 & Hc & ->).
  apply both_ok_inv in Hc as (v3 & r3 & H3 & Hc & ->).
  injection Hc as <-.
  apply plain_str_shape in H1 as [b ->].
  apply plain_str_shape in H2 as [f ->].
  apply plain_optional_str_shape in H3 as [l ->].
  now exists b, f, l.
Qed.

(** The media item built by [create_media] from an accepted request whose
    type is listed and whose price is not below zero. *)
Lemma MediaItem_from_request (b t : string) (c : option string)
    (p : option spec_float) (u : option string) :
  In t media_types ->
  (forall f, p = Some f -> SFleb (S754_zero false) f = true) ->
  construct MediaItem [("bot_id", VStr b);
                       ("type", VStr t);
                       ("caption", optional_value VStr c);
                       ("price", optional_value VFloat p);
                       ("external_url", optional_value VStr u)]
  = Ok [("bot_id", VStr b);
        ("type", VStr t);
        ("caption", optional_value VStr c);
        ("price", optional_value VFloat p);
        ("external_url", optional_value VStr u);
        ("telegram_file_id", VNone);
        ("tags", VList []);
        ("thumbnail_url", VNone)].
Proof.
  intros Hin Hp. unfold construct. cbn [m_fields MediaItem validate_fields].
  unfold validate_field. cbn [dict_get String.eqb Ascii.eqb Bool.eqb].
  cbn [f_type f_ge f_default required optional coerce coerce_str].
  rewrite (coerce_literal_inside ["photo"; "video"; "document"] _ Hin).
  destruct p as [f|].
  - cbn [optional_value coerce coerce_float check_ge].
    change (float_of_Z 0) with (S754_zero false). rewrite (Hp f eq_refl).
    destruct c, u; reflexivity.
  - destruct c, u; reflexivity.
Qed.

Lemma Conversation_from_request (b f : string) (l : option string) :
  construct Conversation [("bot_id", VStr b);
                          ("fan_id", VStr f);
                          ("last_message_preview", optional_value VStr l)]
  = Ok [("bot_id", VStr b);
        ("fan_id", VStr f);
        ("last_message_preview", optional_value VStr l);
        ("last_message_at", VNone);
        ("unread", VInt 0)].
Proof. destruct l; reflexivity. Qed.

(** A body whose five request fields are valid is accepted. *)
Lemma CreateMediaRequest_accepts (body : dict) (b t : string) (vc vp vu : value) :
  dict_get "bot_id" body = Some (VStr b) ->
  dict_get "type" body = Some (VStr t) ->
  validate_field coerce "caption" (plain_optional TStr) body = Ok vc ->
  validate_field coerce "price" (plain_optional TFloat) body = Ok vp ->
  validate_field coerce "external_url" (plain_optional TStr) body = Ok vu ->
  construct CreateMediaRequest body
  = Ok [("bot_id", VStr b); ("type", VStr t); ("caption", vc); ("price", vp);
        ("external_url", vu)].
Proof.
  intros Hb Ht Hc Hp Hu. unfold construct.
  cbn [m_fields CreateMediaRequest validate_fields].
  rewrite Hc, Hp, Hu. unfold validate_field. rewrite Hb, Ht. reflexivity.
Qed.

End MoreRequests.

(** X8. A media-creation request whose [bot_id] is a string and whose
    caption, price and external url are valid is accepted by the request
    model with any string as [type]; when that string is not photo, video
    or document the handler then raises ValidationError (not a request
    error) with a literal error on [type], before the store is touched:
    nothing is inserted, whether or not a store is connected. *)
Theorem post_media_rejects_unlisted_type `{PyRuntime} (body : dict) (b t : string)
    (vc vp vu : value) (w : world) :
  dict_get "bot_id" body = Some (VStr b) ->
  dict_get "type" body = Some (VStr t) ->
  validate_field coerce "caption" (plain_optional TStr) body = Ok vc ->
  validate_field coerce "price" (plain_optional TFloat) body = Ok vp ->
  validate_field coerce "external_url" (plain_optional TStr) body = Ok vu ->
  ~ In t media_types ->
  construct CreateMediaRequest body
  = Ok [("bot_id", VStr b); ("type", VStr t); ("caption", vc); ("price", vp);
        ("external_url", vu)]
  /\ exists es, post_media (VDict body) w = (Err (ValidationError es), w)
                /\ In ([LKey "type"], literal_error) es.
Proof.
  intros Hb Ht Hc Hp Hu Hout.
  pose proof (CreateMediaRequest_accepts body b t vc vp vu Hb Ht Hc Hp Hu) as Hreq.
  split; [exact Hreq|].
  destruct (construct_error MediaItem
              [("bot_id", VStr b); ("type", VStr t); ("caption", vc); ("price", vp);
               ("external_url", vu)] "type"
              (required (TLiteral ["photo"; "video"; "document"]) "Telegram media type")
              [([LKey "type"], literal_error)] ([LKey "type"], literal_error))
    as (es & Hes & Hin).
  - right; left; reflexivity.
  - unfold validate_field. cbn [dict_get String.eqb Ascii.eqb Bool.eqb].
    cbn [f_type required coerce].
    rewrite (coerce_literal_outside ["photo"; "video"; "document"] (VStr t)); [reflexivity|].
    intros s Hs [= ->]. now apply Hout.
  - now left.
  - exists es. split; [|exact Hin].
    unfold post_media, parse_body, bind at 1. rewrite Hreq. cbn [ret].
    unfold create_media, bind, call, model_dump. now rewrite Hes.
Qed.

Lemma post_media_rejects_unlisted_type_witness :
  @construct no_parsing CreateMediaRequest
    [("bot_id", VStr "bot1"); ("type", VStr "audio")]
  = Ok [("bot_id", VStr "bot1"); ("type", VStr "audio"); ("caption", VNone);
        ("price", VNone); ("external_url", VNone)]
  /\ exists es, @post_media no_parsing
                  (VDict [("bot_id", VStr "bot1"); ("type", VStr "audio")]) None
                = (Err (ValidationError es), None)
                /\ In ([LKey "type"], literal_error) es.
Proof.
  apply (@post_media_rejects_unlisted_type no_parsing
           [("bot_id", VStr "bot1"); ("type", VStr "audio")] "bot1" "audio"
           VNone VNone VNone None).
  - reflexivity.
  - reflexivity.
  - reflexivity.
  - reflexivity.
  - reflexivity.
  - intros [E|[E|[E|[]]]]; discriminate.
Defined.

(** X9. The request model puts no bound on [price]: a media-creation request
    whose price reads as a float below zero (the integer -1, say) and whose
    other fields are valid is accepted, with that float as its price; the
    handler then raises ValidationError with a bound error on [price], and
    nothing is inserted. *)
Theorem post_media_rejects_negative_price `{PyRuntime} (body : dict) (b t : string)
    (vc vu v : value) (f : spec_float) (w : world) :
  dict_get "bot_id" body = Some (VStr b) ->
  dict_get "type" body = Some (VStr t) ->
  validate_field coerce "caption" (plain_optional TStr) body = Ok vc ->
  dict_get "price" body = Some v ->
  coerce (TOptional TFloat) v = Ok (VFloat f) ->
  validate_field coerce "external_url" (plain_optional TStr) body = Ok vu ->
  SFltb f (S754_zero false) = true ->
  construct CreateMediaRequest body
  = Ok [("bot_id", VStr b); ("type", VStr t); ("caption", vc); ("price", VFloat f);
        ("external_url", vu)]
  /\ exists es, post_media (VDict body) w = (Err (ValidationError es), w)
                /\ In ([LKey "price"], greater_than_equal) es.
Proof.
  intros Hb Ht Hc Hv Hco Hu Hneg.
  assert (Hp : validate_field coerce "price" (plain_optional TFloat) body = Ok (VFloat f)).
  { unfold validate_field. rewrite Hv. cbn [f_type f_ge plain_optional].
    now rewrite Hco. }
  pose proof (CreateMediaRequest_accepts body b t vc (VFloat f) vu Hb Ht Hc Hp Hu) as Hreq.
  split; [exact Hreq|].
  destruct (construct_error MediaItem
              [("bot_id", VStr b); ("type", VStr t); ("caption", vc); ("price", VFloat f);
               ("external_url", vu)] "price"
              (Field (TOptional TFloat) (Default VNone) (Some 0)
                     (Some "Price in Stars or currency equivalent"))
              [([LKey "price"], greater_than_equal)] ([LKey "price"], greater_than_equal))
    as (es & Hes & Hin).
  - do 3 right; left; reflexivity.
  - unfold validate_field. cbn [dict_get String.eqb Ascii.eqb Bool.eqb].
    cbn [f_type f_ge coerce coerce_float].
    rewrite (check_ge_negative _ Hneg). reflexivity.
  - now left.
  - exists es. split; [|exact Hin].
    unfold post_media, parse_body, bind at 1. rewrite Hreq. cbn [ret].
    unfold create_media, bind, call, model_dump. now rewrite Hes.
Qed.

Lemma post_media_rejects_negative_price_witness :
  @construct no_parsing CreateMediaRequest
    [("bot_id", VStr "bot1"); ("type", VStr "photo"); ("price", VInt (-1))]
  = Ok [("bot_id", VStr "bot1"); ("type", VStr "photo"); ("caption", VNone);
        ("price", VFloat (float_of_Z (-1))); ("external_url", VNone)]
  /\ exists es, @post_media no_parsing
                  (VDict [("bot_id", VStr "bot1"); ("type", VStr "photo");
                          ("price", VInt (-1))])
                  (Some demo_store)
                = (Err (ValidationError es), Some demo_store)
                /\ In ([LKey "price"], greater_than_equal) es.
Proof.
  apply (@post_media_rejects_negative_price no_parsing
           [("bot_id", VStr "bot1"); ("type", VStr "photo"); ("price", VInt (-1))]
           "bot1" "photo" VNone VNone (VInt (-1)) (float_of_Z (-1)) (Some demo_store)).
  - reflexivity.
  - reflexivity.
  - reflexivity.
  - reflexivity.
  - reflexivity.
  - reflexivity.
  - reflexivity.
Defined.

(** X10. For every accepted media-creation request with a listed [type] and
    a price that is absent or not below zero, on a working store, the item
    that is stored carries the five request fields unchanged and has no
    file id, no thumbnail and an empty tag list; the store's identifier is
    returned as a string. *)
Theorem post_media_stores_item `{PyRuntime} (body payload : dict) (t : string)
    (st : store) :
  construct CreateMediaRequest body = Ok payload ->
  dict_get "type" payload = Some (VStr t) ->
  In t media_types ->
  (forall f, dict_get "price" payload = Some (VFloat f) ->
             SFleb (S754_zero false) f = true) ->
  reachable st = true ->
  post_media (VDict body) (Some st) =
    (Ok [("id", VStr (objectid_str (next_id st)))],
     Some (inserted st "mediaitem"
             (payload ++ [("telegram_file_id", VNone);
                          ("tags", VList []);
                          ("thumbnail_url", VNone)])%list)).
Proof.
  intros Hreq Hty Hin Hp Hup.
  destruct (CreateMediaRequest_shape _ _ Hreq) as (b & t' & c & p & u & ->).
  cbn in Hty. injection Hty as ->.
  unfold post_media, parse_body, bind at 1. rewrite Hreq. cbn [ret].
  unfold create_media, bind, call, model_dump.
  rewrite (MediaItem_from_request b t c p u Hin).
  - rewrite (create_document_success _ _ _ Hup). reflexivity.
  - intros f ->. apply Hp. reflexivity.
Qed.

Lemma post_media_stores_item_witness :
  @post_media no_parsing
    (VDict [("bot_id", VStr "bot1"); ("type", VStr "photo"); ("price", VInt 5)])
    (Some demo_store)
  = (Ok [("id", VStr (objectid_str (next_id demo_store)))],
     Some (inserted demo_store "mediaitem"
             ([("bot_id", VStr "bot1"); ("type", VStr "photo"); ("caption", VNone);
               ("price", VFloat (float_of_Z 5)); ("external_url", VNone)]
              ++ [("telegram_file_id", VNone);
                  ("tags", VList []);
                  ("thumbnail_url", VNone)])%list)).
Proof.
  apply (@post_media_stores_item no_parsing _ _ "photo").
  - reflexivity.
  - reflexivity.
  - now left.
  - intros f [= <-]. reflexivity.
  - reflexivity.
Defined.

(** X11. Every accepted conversation-creation request succeeds on a working
    store, and the conversation that is stored carries the three request
    fields unchanged, no time of last message and an unread count of 0. *)
Theorem post_conversations_stores_defaults `{PyRuntime} (body payload : dict)
    (st : store) :
  construct CreateConversationRequest body = Ok payload ->
  reachable st = true ->
  post_conversations (VDict body) (Some st) =
    (Ok [("id", VStr (objectid_str (next_id st)))],
     Some (inserted st "conversation"
             (payload ++ [("last_message_at", VNone); ("unread", VInt 0)])%list)).
Proof.
  intros Hreq Hup.
  destruct (CreateConversationRequest_shape _ _ Hreq) as (b & f & l & ->).
  unfold post_conversations, parse_body, bind at 1. rewrite Hreq. cbn [ret].
  unfold create_conversation, bind, call, model_dump.
  rewrite Conversation_from_request.
  rewrite (create_document_success _ _ _ Hup). reflexivity.
Qed.

Lemma post_conversations_stores_defaults_witness :
  @post_conversations no_parsing
    (VDict [("bot_id", VStr "bot1"); ("fan_id", VStr "fan1"); ("unread", VInt 7)])
    (Some demo_store)
  = (Ok [("id", VStr (objectid_str (next_id demo_store)))],
     Some (inserted demo_store "conversation"
             ([("bot_id", VStr "bot1"); ("fan_id", VStr "fan1");
               ("last_message_preview", VNone)]
              ++ [("last_message_at", VNone); ("unread", VInt 0)])%list)).
Proof.
  apply (@post_conversations_stores_defaults no_parsing); reflexivity.
Defined.

(** [str] of a native identifier is always 24 characters long. *)
Lemma hex_fixed_length (k : nat) (n : N) (acc : string) :
  String.length (hex_fixed k n acc) = (k + String.length acc)%nat.
Proof.
  revert n acc. induction k as [|k IH]; intros n acc; cbn [hex_fixed]; [reflexivity|].
  rewrite IH. cbn [String.length]. lia.
Qed.

Lemma objectid_str_length (o : N) : String.length (objectid_str o) = 24%nat.
Proof. unfold objectid_str. now rewrite hex_fixed_length. Qed.

Section MoreListingFacts.
Context `{PyRuntime}.

Lemma dict_keys_set (k : string) (v : value) (d : dict) :
  is_Some (dict_get k d) -> dict_keys (dict_set k v d) = dict_keys d.
Proof.
  induction d as [|[k' v'] d IH]; cbn.
  - intros [x Hx]. discriminate.
  - destruct (String.eqb_spec k k') as [->|]; cbn; [reflexivity|].
    intros Hs. f_equal. now apply IH.
Qed.

Lemma dict_set_set (k : string) (v v' : value) (d : dict) :
  dict_set k v' (dict_set k v d) = dict_set k v' d.
Proof.
  induction d as [|[k' x] d IH]; cbn.
  - now rewrite String.eqb_refl.
  - destruct (String.eqb_spec k k') as [->|Hne]; cbn.
    + now rewrite String.eqb_refl.
    + apply String.eqb_neq in Hne. rewrite Hne. now rewrite IH.
Qed.

Lemma stringify_id_surfaced (it : dict) (w : world) :
  has_id it -> stringify_id it w = (Ok (surfaced it), w).
Proof.
  intros [v Hv]. unfold stringify_id, surfaced. now rewrite Hv.
Qed.

Lemma for_each_stringify_inv (xs items : list dict) (w w' : world) :
  for_each stringify_id xs w = (Ok items, w') ->
  w' = w /\ items = map surfaced xs /\ Forall has_id xs.
Proof.
  revert items w'. induction xs as [|x xs IH]; intros items w'; cbn [for_each].
  - intros [= <- <-]. repeat split. constructor.
  - unfold bind at 1. unfold stringify_id at 1, surfaced at 1.
    destruct (dict_get "_id" x) as [v|] eqn:Hv; [|discriminate].
    cbn [ret]. unfold bind at 1.
    destruct (for_each stringify_id xs w) as [[ys|e] w1] eqn:Hxs; [|discriminate].
    destruct (IH _ _ eq_refl) as (-> & -> & Hall).
    intros [= <- <-]. repeat split.
    + cbn [map]. unfold surfaced. now rewrite Hv.
    + constructor; [now exists v|exact Hall].
Qed.

Lemma for_each_stringify (xs : list dict) (w : world) :
  Forall has_id xs -> for_each stringify_id xs w = (Ok (map surfaced xs), w).
Proof.
  induction 1 as [|x xs Hx _ IH]; cbn [for_each map]; [reflexivity|].
  unfold bind at 1. rewrite (stringify_id_surfaced x w Hx).
  unfold bind at 1. now rewrite IH.
Qed.

(** What [get_documents] hands to a listing. *)
Lemma get_documents_items (kind : string) (filter_dict : dict) (limit : Z)
    (w w' : world) (raw : list dict) :
  get_documents kind filter_dict limit w = (Ok raw, w') ->
  w' = w
  /\ (length raw <= Z.to_nat limit)%nat
  /\ Forall (fun doc => exists st, w = Some st /\ In doc (documents st kind)
                                   /\ matches filter_dict doc = true) raw.
Proof.
  unfold get_documents. destruct w as [st|].
  - destruct (reachable st); intros [= <- <-]; split; auto.
    + split; [rewrite length_take; lia|].
      apply List.Forall_forall. intros doc Hin. exists st. split; [reflexivity|].
      apply list_elem_of_In in Hin. apply (subseteq_take (Z.to_nat limit)) in Hin.
      apply list_elem_of_In in Hin. now apply filter_In in Hin.
    + split; [cbn; lia|constructor].
  - intros [= <- <-]. split; auto. split; [cbn; lia|constructor].
Qed.

Lemma run_listing_eq (q : listing) :
  run_listing q = (items <- get_documents (listing_kind q) (listing_filter q)
                              (listing_limit q) ;;
                   for_each stringify_id items).
Proof. destruct q; reflexivity. Qed.

Lemma run_listing_inv (q : listing) (w w' : world) (items : list dict) :
  run_listing q w = (Ok items, w') ->
  w' = w
  /\ exists raw,
       items = map surfaced raw
       /\ (length raw <= Z.to_nat (listing_limit q))%nat
       /\ Forall has_id raw
       /\ Forall (fun doc => exists st, w = Some st
                                        /\ In doc (documents st (listing_kind q))
                                        /\ matches (listing_filter q) doc = true) raw.
Proof.
  rewrite run_listing_eq. unfold bind.
  destruct (get_documents _ _ _ w) as [[raw|e] w1] eqn:Hg; [|discriminate].
  apply get_documents_items in Hg as (-> & Hlen & Hraw).
  intros Hloop. apply for_each_stringify_inv in Hloop as (-> & -> & Hid).
  split; [reflexivity|]. exists raw. auto.
Qed.

Lemma surfaced_keys (doc : dict) : dict_keys (surfaced doc) = dict_keys doc.
Proof.
  unfold surfaced. destruct (dict_get "_id" doc) as [v|] eqn:Hv; [|reflexivity].
  apply dict_keys_set. rewrite Hv. now exists v.
Qed.

Lemma surfaced_other (doc : dict) (k : string) :
  k <> "_id" -> dict_get k (surfaced doc) = dict_get k doc.
Proof.
  intros Hk. unfold surfaced. destruct (dict_get "_id" doc) as [v|]; [|reflexivity].
  apply dict_get_set_ne. congruence.
Qed.

Lemma surfaced_idempotent (doc : dict) : surfaced (surfaced doc) = surfaced doc.
Proof.
  unfold surfaced at 2. destruct (dict_get "_id" doc) as [v|] eqn:Hv.
  - unfold surfaced. rewrite dict_get_set_eq, Hv. cbn [py_str]. apply dict_set_set.
  - unfold surfaced. now rewrite Hv.
Qed.

Lemma matches_entry (filter_dict doc : dict) (k s : string) :
  matches filter_dict doc = true ->
  In (k, VStr s) filter_dict ->
  dict_get k doc = Some (VStr s).
Proof.
  unfold matches. rewrite forallb_forall. intros Hall Hin.
  specialize (Hall _ Hin). cbn in Hall.
  destruct (dict_get k doc) as [v|]; [|discriminate].
  now apply value_eqb_VStr in Hall as ->.
Qed.

Lemma listing_filter_not_id (q : listing) (k : string) (v : value) :
  In (k, v) (listing_filter q) -> k <> "_id".
Proof.
  destruct q as [[[|c b]|] l|b l|c l|l]; cbn; intuition congruence.
Qed.

End MoreListingFacts.

(** C6. Every document returned by a listing operation (media,
    conversations, messages, bots) is a stored document of the listing's
    collection whose identifier has been replaced by its [str]: under [_id]
    the caller finds a string, and when the store holds a native identifier
    [VObjectId o] there, that string is the 24 hexadecimal digits of [o];
    the native identifier itself is never handed out. *)
Theorem listed_ids_are_strings `{PyRuntime} (q : listing) (w w' : world)
    (items : list dict) :
  run_listing q w = (Ok items, w') ->
  Forall (fun it =>
            exists st doc v,
              w = Some st
              /\ In doc (documents st (listing_kind q))
              /\ dict_get "_id" doc = Some v
              /\ it = dict_set "_id" (VStr (py_str v)) doc
              /\ dict_get "_id" it = Some (VStr (py_str v))
              /\ (forall o, v = VObjectId o ->
                            dict_get "_id" it = Some (VStr (objectid_str o))
                            /\ String.length (objectid_str o) = 24%nat))
         items.
Proof.
  intros Hrun. apply run_listing_inv in Hrun as (_ & raw & -> & _ & Hid & Hraw).
  apply List.Forall_forall. intros it Hin.
  apply in_map_iff in Hin as (doc & <- & Hin).
  rewrite List.Forall_forall in Hid, Hraw.
  destruct (Hid doc Hin) as [v Hv].
  destruct (Hraw doc Hin) as (st & -> & Hdoc & _).
  exists st, doc, v. unfold surfaced. rewrite Hv.
  split; [reflexivity|]. split; [exact Hdoc|]. split; [reflexivity|].
  split; [reflexivity|]. split; [apply dict_get_set_eq|].
  intros o ->. split; [apply dict_get_set_eq|apply objectid_str_length].
Qed.

Lemma listed_ids_are_strings_witness :
  Forall (fun it =>
            exists st doc v,
              Some demo_store = Some st
              /\ In doc (documents st "mediaitem")
              /\ dict_get "_id" doc = Some v
              /\ it = dict_set "_id" (VStr (@py_str no_parsing v)) doc
              /\ dict_get "_id" it = Some (VStr (@py_str no_parsing v))
              /\ (forall o, v = VObjectId o ->
                            dict_get "_id" it = Some (VStr (objectid_str o))
                            /\ String.length (objectid_str o) = 24%nat))
    [ [("_id", VStr "000000000000000000000001"); ("bot_id", VStr "bot1");
       ("type", VStr "photo")] ].
Proof.
  apply (@listed_ids_are_strings no_parsing (ListMedia (Some "bot1") None)
           (Some demo_store) (Some demo_store)).
  vm_compute. reflexivity.
Defined.

(** X12. A listing leaves the store as it was, and every item it returns is
    a stored document of the listing's own collection that satisfies the
    listing's filter, with the same keys in the same order and the same
    value under every key but [_id]. *)
Theorem listing_returns_stored `{PyRuntime} (q : listing) (w w' : world)
    (items : list dict) :
  run_listing q w = (Ok items, w') ->
  w' = w
  /\ Forall (fun it =>
               exists st doc,
                 w = Some st
                 /\ In doc (documents st (listing_kind q))
                 /\ matches (listing_filter q) doc = true
                 /\ dict_keys it = dict_keys doc
                 /\ forall k, k <> "_id" -> dict_get k it = dict_get k doc)
            items.
Proof.
  intros Hrun. apply run_listing_inv in Hrun as (-> & raw & -> & _ & _ & Hraw).
  split; [reflexivity|].
  apply List.Forall_forall. intros it Hin.
  apply in_map_iff in Hin as (doc & <- & Hdoc).
  rewrite List.Forall_forall in Hraw. destruct (Hraw doc Hdoc) as (st & -> & Hst & Hm).
  exists st, doc. repeat split; auto using surfaced_keys.
  intros k Hk. now apply surfaced_other.
Qed.

Lemma listing_returns_stored_witness :
  Some demo_store = Some demo_store
  /\ Forall (fun it =>
               exists st doc,
                 Some demo_store = Some st
                 /\ In doc (documents st (listing_kind (ListMessages "c1" None)))
                 /\ matches (listing_filter (ListMessages "c1" None)) doc = true
                 /\ dict_keys it = dict_keys doc
                 /\ forall k, k <> "_id" -> dict_get k it = dict_get k doc)
            [ [("_id", VStr "000000000000000000000003"); ("conversation_id", VStr "c1");
               ("direction", VStr "inbound")] ].
Proof.
  apply (@listing_returns_stored no_parsing (ListMessages "c1" None)
           (Some demo_store) (Some demo_store)).
  vm_compute. reflexivity.
Defined.

(** X13. Every item a listing returns has, under each field of the
    listing's filter, exactly the requested string: a conversation listing
    for a bot returns only conversations of that bot (also for the empty
    bot id, which is filtered like any other), and a message listing
    returns only messages of the requested conversation. *)
Theorem listed_items_satisfy_filter `{PyRuntime} (q : listing) (w w' : world)
    (items : list dict) (k s : string) :
  run_listing q w = (Ok items, w') ->
  In (k, VStr s) (listing_filter q) ->
  Forall (fun it => dict_get k it = Some (VStr s)) items.
Proof.
  intros Hrun Hin. apply run_listing_inv in Hrun as (-> & raw & -> & _ & _ & Hraw).
  apply List.Forall_forall. intros it Hit.
  apply in_map_iff in Hit as (doc & <- & Hdoc).
  rewrite List.Forall_forall in Hraw. destruct (Hraw doc Hdoc) as (st & _ & _ & Hm).
  rewrite surfaced_other by (eapply listing_filter_not_id; eauto).
  eapply matches_entry; eauto.
Qed.

Lemma listed_items_satisfy_filter_witness :
  Forall (fun it => dict_get "bot_id" it = Some (VStr "bot2"))
    [ [("_id", VStr "000000000000000000000002"); ("bot_id", VStr "bot2");
       ("type", VStr "video")] ].
Proof.
  apply (@listed_items_satisfy_filter no_parsing (ListMedia (Some "bot2") None)
           (Some demo_store) (Some demo_store)).
  - vm_compute. reflexivity.
  - now left.
Defined.

(** X14. With a positive limit a listing returns at most that many items;
    when the caller gives no limit the bound is 50 for media and
    conversations, 100 for messages and 20 for bots. *)
Theorem listing_bounded `{PyRuntime} (q : listing) (w w' : world) (items : list dict) :
  run_listing q w = (Ok items, w') ->
  0 < listing_limit q ->
  Z.of_nat (length items) <= listing_limit q.
Proof.
  intros Hrun Hpos. apply run_listing_inv in Hrun as (_ & raw & -> & Hlen & _).
  rewrite length_map. lia.
Qed.

Lemma listing_bounded_witness :
  Z.of_nat (length [ [("_id", VStr "000000000000000000000001"); ("bot_id", VStr "bot1");
                      ("type", VStr "photo")] ]) <= 1.
Proof.
  apply (@listing_bounded no_parsing (ListMedia None (Some 1))
           (Some demo_store) (Some demo_store)).
  - vm_compute. reflexivity.
  - reflexivity.
Defined.

(** X15. Surfacing identifiers is idempotent: run again over the items a
    listing returned, the conversion loop succeeds and returns them
    unchanged. *)
Theorem stringify_twice `{PyRuntime} (raw items : list dict) (w w' : world) :
  for_each stringify_id raw w = (Ok items, w') ->
  for_each stringify_id items w' = (Ok items, w').
Proof.
  intros Hloop. apply for_each_stringify_inv in Hloop as (-> & -> & Hid).
  rewrite for_each_stringify.
  - rewrite map_map. do 2 f_equal. apply map_ext. intros doc. apply surfaced_idempotent.
  - apply List.Forall_forall. intros it Hit.
    apply in_map_iff in Hit as (doc & <- & Hdoc).
    rewrite List.Forall_forall in Hid. destruct (Hid doc Hdoc) as [v Hv].
    unfold surfaced. rewrite Hv. exists (VStr (py_str v)). apply dict_get_set_eq.
Qed.

Lemma stringify_twice_witness :
  for_each (@stringify_id no_parsing)
    [ [("_id", VStr "000000000000000000000003"); ("conversation_id", VStr "c1")] ]
    None
  = (Ok [ [("_id", VStr "000000000000000000000003"); ("conversation_id", VStr "c1")] ],
     None).
Proof.
  apply (@stringify_twice no_parsing
           [ [("_id", VObjectId 3); ("conversation_id", VStr "c1")] ] _ None None).
  reflexivity.
Defined.

Section ComposeFacts.
Context `{PyRuntime}.

Lemma keeps_wf_ret {A} (a : A) : keeps_wf (ret a).
Proof. intros w Hwf. exact Hwf. Qed.

Lemma keeps_wf_raise {A} (e : exn) : keeps_wf (@raise A e).
Proof. intros w Hwf. exact Hwf. Qed.

Lemma keeps_wf_call {A} (r : result exn A) : keeps_wf (call r).
Proof. intros w Hwf. exact Hwf. Qed.

Lemma keeps_wf_getattr (obj : dict) (name : string) : keeps_wf (getattr obj name).
Proof. unfold getattr. destruct (dict_get name obj); [apply keeps_wf_ret|apply keeps_wf_raise]. Qed.

Lemma keeps_wf_parse_body (req : model) (body : value) : keeps_wf (parse_body req body).
Proof.
  unfold parse_body. destruct body; try apply keeps_wf_raise.
  destruct (construct req d) as [p|[]]; first [apply keeps_wf_ret|apply keeps_wf_raise].
Qed.

Lemma keeps_wf_create_document (kind : string) (record : dict) :
  keeps_wf (create_document kind record).
Proof. intros w Hwf. now apply create_document_wf. Qed.

Lemma keeps_wf_bind {A B} (c : App A) (k : A -> App B) :
  keeps_wf c -> (forall a, keeps_wf (k a)) -> keeps_wf (bind c k).
Proof.
  intros Hc Hk w Hwf. unfold bind. specialize (Hc w Hwf).
  destruct (c w) as [[a|e] w1]; cbn in *; [now apply Hk|exact Hc].
Qed.

Ltac keeps_wf_steps :=
  repeat first
    [ apply keeps_wf_ret
    | apply keeps_wf_call
    | apply keeps_wf_getattr
    | apply keeps_wf_parse_body
    | apply keeps_wf_create_document
    | apply keeps_wf_bind; [|intros ?] ].

Lemma keeps_wf_run_post (r : post) : keeps_wf (run_post r).
Proof.
  destruct r; cbn [run_post];
    unfold post_media, post_conversations, post_messages, post_bots,
           create_media, create_conversation, send_message, create_bot;
    keeps_wf_steps.
Qed.

Lemma run_posts_wf (rs : list post) (w : world) :
  wf_world w -> wf_world (run_posts rs w).
Proof.
  revert w. induction rs as [|r rs IH]; intros w Hwf; cbn [run_posts]; [exact Hwf|].
  apply IH. now apply keeps_wf_run_post.
Qed.

Lemma documents_inserted (st : store) (fields : dict) :
  documents (inserted st "message" fields) "message"
  = (documents st "message" ++ [("_id", VObjectId (next_id st)) :: fields])%list.
Proof.
  unfold documents at 1, inserted. cbn [collections].
  change (collection_of "message") with "message".
  now rewrite lookup_insert_eq.
Qed.

Lemma filter_snoc {A} (p : A -> bool) (l : list A) (x : A) :
  p x = true -> List.filter p (l ++ [x]) = (List.filter p l ++ [x])%list.
Proof.
  intros Hx. induction l as [|y l IH]; cbn; [now rewrite Hx|].
  destruct (p y); cbn; now rewrite IH.
Qed.

Lemma filter_has_id (p : dict -> bool) (l : list dict) :
  Forall has_id l -> Forall has_id (List.filter p l).
Proof.
  induction 1 as [|x l Hx _ IH]; cbn; [constructor|].
  destruct (p x); [constructor|]; assumption.
Qed.

(** Sending on a working store, with the request spelled out. *)
Lemma post_messages_run (body : dict) (c : string) (t m : option string) (b : bool)
    (p : option spec_float) (st : store) :
  construct SendMessageRequest body =
    Ok [("conversation_id", VStr c); ("text", optional_value VStr t);
        ("media_item_id", optional_value VStr m); ("paid", VBool b);
        ("price", optional_value VFloat p)] ->
  reachable st = true ->
  post_messages (VDict body) (Some st) =
    (Ok [("id", VStr (objectid_str (next_id st))); ("telegram_message_id", VInt 123456)],
     Some (inserted st "message" (outbound_message c t m b p))).
Proof.
  intros Hreq Hup.
  unfold post_messages, parse_body, bind at 1. rewrite Hreq. cbn [ret].
  unfold send_message, getattr, bind, ret, call. cbn [dict_get String.eqb Ascii.eqb Bool.eqb].
  rewrite Message_outbound. rewrite (create_document_success _ _ _ Hup). reflexivity.
Qed.

End ComposeFacts.

(** X16. Starting from a store whose documents all carry an identifier (an
    empty store, or none at all), after any sequence of POST requests,
    accepted or not, every listing returns without raising and leaves the
    store as it is: the handlers only ever add documents that the store has
    given an identifier. *)
Theorem listings_never_fail_after_posts `{PyRuntime} (rs : list post) (q : listing)
    (w : world) :
  wf_world w ->
  exists items, run_listing q (run_posts rs w) = (Ok items, run_posts rs w).
Proof.
  intros Hwf. apply run_listing_total. now apply run_posts_wf.
Qed.

Lemma listings_never_fail_after_posts_witness :
  exists items,
    @run_listing no_parsing (ListBots None)
      (@run_posts no_parsing
         [PostBots (VDict [("name", VStr "Buddy")]);
          PostMedia (VDict [("bot_id", VStr "bot1"); ("type", VStr "audio")]);
          PostMessages (VDict [("conversation_id", VStr "c1")])]
         (Some (Store ∅ 0 true)))
    = (Ok items,
       @run_posts no_parsing
         [PostBots (VDict [("name", VStr "Buddy")]);
          PostMedia (VDict [("bot_id", VStr "bot1"); ("type", VStr "audio")]);
          PostMessages (VDict [("conversation_id", VStr "c1")])]
         (Some (Store ∅ 0 true))).
Proof.
  apply (@listings_never_fail_after_posts no_parsing). apply wf_world_initial.
Defined.

(** X17. A message sent on a working store shows up in the listing of its
    conversation: with a limit above the number of messages the
    conversation already had, the listing after the send is the listing
    before it followed by one more item, which carries the identifier
    returned by the send as a string, direction outbound, the placeholder
    delivery identifier and the conversation id of the request. *)
Theorem sent_message_is_listed `{PyRuntime} (body payload : dict) (c : string)
    (st : store) (limit : Z) :
  construct SendMessageRequest body = Ok payload ->
  dict_get "conversation_id" payload = Some (VStr c) ->
  reachable st = true ->
  wf_world (Some st) ->
  Z.of_nat (length (List.filter (matches [("conversation_id", VStr c)])
                                (documents st "message"))) < limit ->
  exists before msg,
    list_messages c (Some limit) (Some st) = (Ok before, Some st)
    /\ list_messages c (Some limit) (snd (post_messages (VDict body) (Some st)))
       = (Ok (before ++ [("_id", VStr (objectid_str (next_id st))) :: msg])%list,
          snd (post_messages (VDict body) (Some st)))
    /\ dict_get "direction" msg = Some (VStr "outbound")
    /\ dict_get "telegram_message_id" msg = Some (VInt 123456)
    /\ dict_get "conversation_id" msg = Some (VStr c).
Proof.
  intros Hreq Hc Hup Hwf Hlim.
  destruct (SendMessageRequest_shape _ _ Hreq) as (c' & t & m & b & p & ->).
  cbn in Hc. injection Hc as ->.
  set (flt := [("conversation_id", VStr c)]) in *.
  set (olds := List.filter (matches flt) (documents st "message")) in *.
  assert (Hids : Forall has_id olds)
    by (apply filter_has_id, (Hwf st "message" eq_refl)).
  exists (map surfaced olds), (outbound_message c t m b p).
  rewrite (post_messages_run _ _ _ _ _ _ _ Hreq Hup). cbn [snd].
  split; [|split; [|repeat split]].
  - unfold list_messages, bind, get_documents. rewrite Hup.
    change (default 100 (Some limit)) with limit.
    fold flt. fold olds. rewrite take_ge by lia.
    now apply for_each_stringify.
  - unfold list_messages, bind, get_documents. cbn [reachable inserted].
    change (default 100 (Some limit)) with limit.
    fold flt. rewrite documents_inserted.
    rewrite filter_snoc
      by (unfold flt, matches; cbn; now rewrite String.eqb_refl).
    fold olds. rewrite take_ge by (rewrite length_app; cbn; lia).
    rewrite for_each_stringify.
    + rewrite map_app. reflexivity.
    + apply Forall_app. split; [exact Hids|].
      constructor; [|constructor]. now exists (VObjectId (next_id st)).
Qed.

Lemma sent_message_is_listed_witness :
  exists before msg,
    @list_messages no_parsing "c1" (Some 100) (Some demo_store)
      = (Ok before, Some demo_store)
    /\ @list_messages no_parsing "c1" (Some 100)
         (snd (@post_messages no_parsing
                 (VDict [("conversation_id", VStr "c1"); ("text", VStr "hi")])
                 (Some demo_store)))
       = (Ok (before ++ [("_id", VStr (objectid_str (next_id demo_store))) :: msg])%list,
          snd (@post_messages no_parsing
                 (VDict [("conversation_id", VStr "c1"); ("text", VStr "hi")])
                 (Some demo_store)))
    /\ dict_get "direction" msg = Some (VStr "outbound")
    /\ dict_get "telegram_message_id" msg = Some (VInt 123456)
    /\ dict_get "conversation_id" msg = Some (VStr "c1").
Proof.
  apply (@sent_message_is_listed no_parsing _
           [("conversation_id", VStr "c1"); ("text", VStr "hi"); ("media_item_id", VNone);
            ("paid", VBool false); ("price", VNone)]).
  - reflexivity.
  - reflexivity.
  - reflexivity.
  - intros st kind [= <-]. unfold documents, demo_store. cbn [collections].
    destruct (decide (collection_of kind = "mediaitem")) as [->|Hm].
    + rewrite lookup_insert_eq. cbn. repeat constructor; now eexists.
    + rewrite lookup_insert_ne by congruence.
      destruct (decide (collection_of kind = "message")) as [->|Hs].
      * rewrite lookup_insert_eq. cbn. repeat constructor; now eexists.
      * rewrite lookup_insert_ne by congruence. rewrite lookup_empty. constructor.
  - vm_compute. reflexivity.
Defined.

(* ===================================================================== *)
(** * The diagnostics route *)
(* ===================================================================== *)

(** X18. Whatever the environment and the store, the diagnostics route
    returns a report and leaves the store as it was. The report always has
    the same six keys, lists at most ten collection names (the first ten the
    store reports), says Connected exactly when a store handle exists and
    its collections could be listed, and shows a configuration variable as
    set exactly when a store handle exists and the variable is non-empty:
    without a handle both variables are shown as not set even when they
    are. *)
Theorem test_database_report (getenv : string -> option string)
    (list_collection_names : store -> result string (list string)) (w : world) :
  exists resp shown,
    test_database getenv list_collection_names w = (Ok resp, w)
    /\ dict_keys resp = ["backend"; "database"; "database_url"; "database_name";
                         "connection_status"; "collections"]
    /\ dict_get "collections" resp = Some (VList (map VStr shown))
    /\ (length shown <= 10)%nat
    /\ (forall db names, w = Some db -> list_collection_names db = Ok names ->
          shown = take 10 names)
    /\ (dict_get "connection_status" resp = Some (VStr "Connected")
        <-> exists db names, w = Some db /\ list_collection_names db = Ok names)
    /\ (dict_get "database_url" resp = Some (VStr "✅ Set")
        <-> is_Some w /\ env_is_set getenv "DATABASE_URL" = true)
    /\ (dict_get "database_name" resp = Some (VStr "✅ Set")
        <-> is_Some w /\ env_is_set getenv "DATABASE_NAME" = true).
Proof.
  unfold test_database. destruct w as [db|].
  - destruct (list_collection_names db) as [names|e] eqn:Hnames.
    + eexists. exists (take 10 names).
      split; [reflexivity|]. split; [reflexivity|]. split; [reflexivity|].
      split; [rewrite length_take; lia|].
      split; [intros db' names' [= <-] Hn; congruence|].
      split; [split; [eauto|reflexivity]|].
      split; cbn; (split; [intros Hf; split; [now exists db|]|intros [_ ->]; reflexivity]).
      * destruct (env_is_set getenv "DATABASE_URL"); [reflexivity|discriminate].
      * destruct (env_is_set getenv "DATABASE_NAME"); [reflexivity|discriminate].
    + eexists. exists [].
      split; [reflexivity|]. split; [reflexivity|]. split; [reflexivity|].
      split; [cbn; lia|].
      split; [intros db' names' [= <-] Hn; congruence|].
      split; [split; [discriminate|intros (db' & names' & [= <-] & Hn); congruence]|].
      split; cbn; (split; [intros Hf; split; [now exists db|]|intros [_ ->]; reflexivity]).
      * destruct (env_is_set getenv "DATABASE_URL"); [reflexivity|discriminate].
      * destruct (env_is_set getenv "DATABASE_NAME"); [reflexivity|discriminate].
  - eexists. exists [].
    split; [reflexivity|]. split; [reflexivity|]. split; [reflexivity|].
    split; [cbn; lia|].
    split; [intros db names [=]|].
    split; [split; [discriminate|intros (db & names & [=] & _)]|].
    split; (split; [discriminate|intros [[db [=]] _]]).
Qed.

(** The report when the variables are set but no store handle exists. *)
Example test_database_without_handle :
  fst (test_database (fun _ => Some "mongodb://db") (fun _ => Ok ["bot"]) None) =
  Ok [("backend", VStr "✅ Running");
      ("database", VStr "⚠️  Available but not initialized");
      ("database_url", VStr "❌ Not Set");
      ("database_name", VStr "❌ Not Set");
      ("connection_status", VStr "Not Connected");
      ("collections", VList [])].
Proof. reflexivity. Qed.

(* ===================================================================== *)
(** * All or nothing *)
(* ===================================================================== *)

(** X19. Every POST request ends in one of two ways, whatever its body and
    whatever the state of the store: it raises and the store is exactly as
    before, or it returns, and then the store was working, exactly one
    document was appended to the route's own collection, and the response
    carries that document's identifier as a string. No request stores a
    document and then fails. *)
Theorem post_all_or_nothing `{PyRuntime} (r : post) (w : world) :
  (exists e, run_post r w = (Err e, w))
  \/ (exists st fields resp,
        w = Some st /\ reachable st = true
        /\ run_post r w = (Ok resp, Some (inserted st (post_kind r) fields))
        /\ dict_get "id" resp = Some (VStr (objectid_str (next_id st)))).
Proof.
  destruct r as [body|body|body|body]; cbn [run_post post_kind].
  - unfold post_media, parse_body, bind at 1.
    destruct body; try (left; eexists; reflexivity).
    destruct (construct CreateMediaRequest d) as [payload|e];
      [|left; destruct e; eexists; reflexivity].
    unfold create_media, bind, ret, call.
    destruct (construct MediaItem (model_dump payload)) as [doc|e];
      [|left; eexists; reflexivity].
    unfold create_document.
    destruct w as [st|]; [|left; eexists; reflexivity].
    destruct (reachable st) eqn:Hup; [|left; eexists; reflexivity].
    right. exists st, doc. eexists. repeat split; try reflexivity. exact Hup.
  - unfold post_conversations, parse_body, bind at 1.
    destruct body; try (left; eexists; reflexivity).
    destruct (construct CreateConversationRequest d) as [payload|e];
      [|left; destruct e; eexists; reflexivity].
    unfold create_conversation, bind, ret, call.
    destruct (construct Conversation (model_dump payload)) as [doc|e];
      [|left; eexists; reflexivity].
    unfold create_document.
    destruct w as [st|]; [|left; eexists; reflexivity].
    destruct (reachable st) eqn:Hup; [|left; eexists; reflexivity].
    right. exists st, doc. eexists. repeat split; try reflexivity. exact Hup.
  - unfold post_messages, parse_body, bind at 1.
    destruct body; try (left; eexists; reflexivity).
    destruct (construct SendMessageRequest d) as [payload|e] eqn:Hreq;
      [|left; destruct e; eexists; reflexivity].
    destruct (SendMessageRequest_shape _ _ Hreq) as (c & t & m & b & p & ->).
    cbn [ret]. unfold send_message, getattr, bind, ret, call.
    cbn [dict_get String.eqb Ascii.eqb Bool.eqb].
    rewrite Message_outbound. unfold create_document.
    destruct w as [st|]; [|left; eexists; reflexivity].
    destruct (reachable st) eqn:Hup; [|left; eexists; reflexivity].
    right. exists st, (outbound_message c t m b p). eexists.
    repeat split; try reflexivity. exact Hup.
  - unfold post_bots, parse_body, bind at 1.
    destruct body; try (left; eexists; reflexivity).
    destruct (construct CreateBotRequest d) as [payload|e] eqn:Hreq;
      [|left; destruct e; eexists; reflexivity].
    destruct (CreateBotRequest_shape _ _ Hreq) as (n & u & ->).
    cbn [ret]. unfold create_bot, getattr, bind, ret, call.
    cbn [dict_get String.eqb Ascii.eqb Bool.eqb].
    rewrite Bot_from_request. unfold create_document.
    destruct w as [st|]; [|left; eexists; reflexivity].
    destruct (reachable st) eqn:Hup; [|left; eexists; reflexivity].
    right. exists st, (new_bot n u). eexists.
    repeat split; try reflexivity. exact Hup.
Qed.

(* ===================================================================== *)
(** * Defaults and revalidation *)
(* ===================================================================== *)

Section DefaultFacts.
Context `{PyRuntime}.

Lemma validate_fields_lookup {T} (co : T -> value -> vresult value)
    (fs : list (string * field_info T)) (kwargs inst : dict)
    (n : string) (fi : field_info T) :
  validate_fields co fs kwargs = Ok inst ->
  List.NoDup (map fst fs) ->
  In (n, fi) fs ->
  exists x, validate_field co n fi kwargs = Ok x /\ dict_get n inst = Some x.
Proof.
  revert inst. induction fs as [|[n0 f0] fs IH]; intros inst; cbn [validate_fields];
    [intros _ _ []|].
  intros Hv Hnd Hin. apply both_ok_inv in Hv as (x0 & r & Hx0 & Hr & ->).
  cbn in Hnd. apply NoDup_cons_iff in Hnd as [Hfresh Hnd].
  destruct Hin as [[= -> ->]|Hin].
  - exists x0. split; [exact Hx0|]. cbn. now rewrite String.eqb_refl.
  - destruct (IH _ Hr Hnd Hin) as (x & Hx & Hget). exists x. split; [exact Hx|].
    cbn. destruct (String.eqb_spec n n0) as [->|]; [|exact Hget].
    exfalso. apply Hfresh. apply in_map_iff. now exists (n0, fi).
Qed.

Lemma validate_items_canonical (co : value -> vresult value) (l : list value) :
  List.Forall (fun x => co x = Ok x) l ->
  forall i, validate_items co i l = Ok l.
Proof.
  induction 1 as [|x l Hx _ IH]; intros i; cbn [validate_items]; [reflexivity|].
  now rewrite Hx, IH.
Qed.

(** A value that already has the shape of a model-free annotation validates
    to itself. *)
Lemma coerce_canonical (t : ftype) :
  model_free t = true ->
  forall v, conforms t v = true -> coerce t v = Ok v.
Proof.
  induction t as [| | | |opts|t IH|t IH|name fields _] using ftype_nested_ind;
    cbn [model_free]; intros Hfree v Hv; try discriminate.
  - destruct v; try discriminate. reflexivity.
  - destruct v; try discriminate. reflexivity.
  - destruct v; try discriminate. reflexivity.
  - destruct v; try discriminate. reflexivity.
  - destruct v; try discriminate. cbn in Hv |- *. now rewrite Hv.
  - cbn [coerce]. destruct v; try (apply (IH Hfree); exact Hv). reflexivity.
  - destruct v; try discriminate. cbn [coerce conforms] in Hv |- *.
    rewrite validate_items_canonical; [reflexivity|].
    apply List.Forall_forall. intros x Hx. apply (IH Hfree).
    rewrite forallb_forall in Hv. now apply Hv.
Qed.

End DefaultFacts.

(** X20. In every record definition with distinct field names, a field that
    is declared with a default and is not supplied holds exactly the
    declared default in the instance; the default is taken as written, not
    validated or converted. *)
Theorem omitted_field_takes_default `{PyRuntime} (m : model) (kwargs inst : dict)
    (name : string) (fi : field_info ftype) (v : value) :
  construct m kwargs = Ok inst ->
  List.NoDup (map fst (m_fields m)) ->
  In (name, fi) (m_fields m) ->
  f_default fi = Default v ->
  dict_get name kwargs = None ->
  dict_get name inst = Some v.
Proof.
  intros Hc Hnd Hin Hd Hk. apply construct_ok_inv in Hc.
  destruct (validate_fields_lookup _ _ _ _ _ _ Hc Hnd Hin) as (x & Hx & ->).
  unfold validate_field in Hx. rewrite Hk, Hd in Hx. congruence.
Qed.

Lemma omitted_field_takes_default_witness :
  dict_get "total_spend"
    [("bot_id", VStr "bot1"); ("tg_user_id", VStr "42"); ("username", VNone);
     ("first_name", VNone); ("last_name", VNone); ("timezone", VNone);
     ("total_spend", VInt 0)]
  = Some (VInt 0).
Proof.
  apply (@omitted_field_takes_default no_parsing Fan
           [("bot_id", VStr "bot1"); ("tg_user_id", VStr "42")] _ "total_spend"
           (Field TFloat (Default (VInt 0)) None
                  (Some "Total Stars revenue associated with this fan"))).
  - reflexivity.
  - repeat constructor; cbn; intuition discriminate.
  - do 6 right. left. reflexivity.
  - reflexivity.
  - reflexivity.
Defined.

(** X21. Validation is idempotent on annotations without a nested model: a
    value that validation returned validates again to itself, so passing
    the validated fields of a request on to a record definition with the
    same annotation (as [create_media] and [send_message] do) changes no
    value. *)
Theorem coerce_idempotent `{PyRuntime} (t : ftype) (v v' : value) :
  model_free t = true ->
  coerce t v = Ok v' ->
  coerce t v' = Ok v'.
Proof.
  intros Hfree Hv. apply coerce_canonical; [exact Hfree|].
  eapply coerce_conforms; eauto.
Qed.

Lemma coerce_idempotent_witness :
  @coerce no_parsing (TOptional TFloat) (VFloat (float_of_Z 5))
  = Ok (VFloat (float_of_Z 5)).
Proof.
  apply (@coerce_idempotent no_parsing (TOptional TFloat) (VInt 5)); reflexivity.
Defined.
